(** * article_learner: training supervised learners on the article database

    A shallow embedding of [code/article_learner.py]: the importance
    extractor [variable_importance], the trainer [train_model] and the driver
    [article_trainers], together with the part of Python, numpy and
    scikit-learn that gives those three functions a meaning.

    - Python values the program handles are inductive types ([value],
      [indices], [key]); floats are rationals: the program only stores,
      compares and prints them, and on finite floats those agree with [Q].
    - An exception is an [outcome]; the program state ([world]) holds the
      objects created so far, what was printed, the calls made, and the state
      of numpy's global random generator.  [Py] is the state and exception
      monad over it.
    - What the libraries leave open (the order inside a partition, how a
      model is fit, which rows a random split draws) is a field of
      [Library]; a theorem names the contract of a field it relies on. *)

From Stdlib Require Import QArith Qround Ascii.
From stdpp Require Import base option list list_monad gmap strings sorting.

(** ** Exceptions and fallible results *)

Inductive exn :=
  | ValueError
  | IndexError
  | TypeError
  | KeyError
  | ReferenceError
  | Exception (name : string).

Inductive outcome (A : Type) :=
  | Ok (a : A)
  | Raise (e : exn).
Arguments Ok {A} a.
Arguments Raise {A} e.

Global Instance outcome_ret : MRet outcome := λ A a, Ok a.
Global Instance outcome_bind : MBind outcome := λ A B f m,
  match m with Ok a => f a | Raise e => Raise e end.
Global Instance outcome_fmap : FMap outcome := λ A B f m,
  match m with Ok a => Ok (f a) | Raise e => Raise e end.

Definition raised {A} (o : outcome A) : Prop :=
  match o with Ok _ => False | Raise _ => True end.

(** ** Python and numpy values *)

(** What an attribute of a fitted estimator, or an element of it, can be. *)
Inductive value :=
  | VNone
  | VNum (x : Q)
  | VArr1 (v : list Q)
  | VArr2 (m : list (list Q)).

(** An integer ndarray, as [np.argpartition] returns it. *)
Inductive indices :=
  | IArr1 (r : list nat)
  | IArr2 (rs : list (list nat)).

(** One element of an integer ndarray: an integer, or a row. *)
Inductive key :=
  | KInt (c : nat)
  | KArr (r : list nat).

(** The number of elements of a matrix. *)
Definition array_size (m : list (list Q)) : nat := sum_list_with length m.

(** [kth] counts from the end when negative; out of bounds along the axis,
    of length [n], is a ValueError.  numpy makes that check only on an
    array that has elements, [size] of them in all: an array of size 0 is
    not checked. *)
Definition normalize_kth (kth : Z) (n size : nat) : outcome nat :=
  let k := if (kth <? 0)%Z then (kth + Z.of_nat n)%Z else kth in
  if negb (size =? 0) && ((k <? 0)%Z || (Z.of_nat n <=? k)%Z) then Raise ValueError
  else Ok (Z.to_nat k).

Section numpy.
(** The selection routine behind [np.argpartition]: numpy fixes what it
    achieves ([partitioned], below), not the order it leaves. *)
Variable introselect : list Q → nat → list nat.

(** One row of an array of [size] elements; with no element there is
    nothing to select from, and the result is empty. *)
Definition argpartition_row (size : nat) (v : list Q) (kth : Z) : outcome (list nat) :=
  k ← normalize_kth kth (length v) size;
  mret (if size =? 0 then [] else introselect v k).

(** [np.argpartition(a, kth)], along the last axis.  [None] and a scalar
    are taken as an array of one element, where [kth = -10] is out of
    bounds. *)
Definition np_argpartition (a : value) (kth : Z) : outcome indices :=
  match a with
  | VNone | VNum _ => Raise ValueError
  | VArr1 v => IArr1 <$> argpartition_row (length v) v kth
  | VArr2 m => IArr2 <$> mapM (λ row, argpartition_row (array_size m) row kth) m
  end.
End numpy.

(** [a[-10:]]: the last ten entries along the first axis, all of them when
    there are fewer. *)
Definition last_10 {A} (l : list A) : list A := drop (length l - 10) l.

Definition slice_last_10 (a : indices) : indices :=
  match a with
  | IArr1 r => IArr1 (last_10 r)
  | IArr2 rs => IArr2 (last_10 rs)
  end.

(** [top_10_vars[rank]] *)
Definition indices_getitem (a : indices) (rank : nat) : outcome key :=
  match a with
  | IArr1 r => match r !! rank with Some c => Ok (KInt c) | None => Raise IndexError end
  | IArr2 rs => match rs !! rank with Some row => Ok (KArr row) | None => Raise IndexError end
  end.

Definition list_getitem {A} (l : list A) (i : nat) : outcome A :=
  match l !! i with Some x => Ok x | None => Raise IndexError end.

(** [var_imp[feature_col]]: an element or a row for an integer, the
    elements or rows picked for an integer array. *)
Definition value_getitem (a : value) (k : key) : outcome value :=
  match a, k with
  | VNone, _ => Raise TypeError
  | VNum _, _ => Raise IndexError
  | VArr1 v, KInt c => VNum <$> list_getitem v c
  | VArr1 v, KArr r => VArr1 <$> mapM (list_getitem v) r
  | VArr2 m, KInt c => VArr1 <$> list_getitem m c
  | VArr2 m, KArr r => VArr2 <$> mapM (list_getitem m) r
  end.

(** Modelled from the spec: the dataset's [column_number], of the absent
    [code/article_db.py], is "a mapping from column index to human-readable
    feature name": a dict.  A missing key is a KeyError, and an ndarray is
    no key at all (it is unhashable). *)
Definition dict_getitem (d : gmap nat string) (k : key) : outcome string :=
  match k with
  | KInt c => match d !! c with Some name => Ok name | None => Raise KeyError end
  | KArr _ => Raise TypeError
  end.

(** ** The dataset, the learners and the fitted models *)

(** Modelled from the spec: an [ArticleDB] object, of the absent
    [code/article_db.py], exposes "a feature matrix X (rows = articles,
    columns = features), a label vector y, and a mapping from column index to
    human-readable feature name". *)
Module ArticleDB.
Record t := {
  X : list (list Q);
  y : list Z;
  column_number : gmap nat string
}.
End ArticleDB.

(** The classifier classes the program imports; any other subclass of
    [ClassifierMixin] is a class all the same. *)
Inductive learner_class :=
  | DecisionTreeClassifier
  | MultinomialNB
  | LogisticRegression
  | OtherClassifier (name : string).

(** A number written in the source: [1] is an int, [1.0] a float. *)
Inductive pynum :=
  | PyInt (n : Z)
  | PyFloat (q : Q).

(** [{'alpha': [0.1, 1.0]}]: hyperparameter names with their candidates. *)
Definition param_grid := list (string * list pynum).
(** One value for each hyperparameter that is set; [[]] sets none. *)
Definition assignment := list (string * pynum).

(** An estimator object before fitting: its class and the arguments its
    constructor was given. *)
Record estimator := {
  est_class : learner_class;
  est_args : assignment
}.

(** A fitted estimator, as far as the program looks at it: the two
    attributes [variable_importance] probes with [hasattr]. *)
Record fitted := {
  coef_ : option value;
  feature_importances_ : option value
}.

(** A fitted [GridSearchCV]. *)
Record grid_search := {
  best_params_ : assignment;
  best_score_ : Q;
  best_estimator_ : fitted
}.

Record split := {
  X_train : list (list Q);
  X_test : list (list Q);
  y_train : list Z;
  y_test : list Z
}.

(** ** The program state *)

Definition loc := nat.

(** A line on standard output, by the f-string that prints it. *)
Inductive line :=
  | HeaderLine (learner_repr : string) (best_params : assignment)
  | ValAccuracyLine (best_score : Q)
  | TestAccuracyLine (accuracy : Q)
  | MostImportantLine
  | FeatureLine (rank : nat) (feature_name : string) (feature_score : value).

(** A call that leaves the module, and the entry of [train_model]. *)
Inductive event :=
  | EvArticleDB (domain_endings author : bool)
  | EvTrainModel (data : loc) (learner : learner_class) (grid : param_grid)
  | EvInstantiate (learner : learner_class) (args : assignment)
  | EvSplit (X : list (list Q)) (y : list Z) (test_size : Q) (random_state : option Z)
  | EvCrossVal (est : estimator) (params : assignment) (X : list (list Q)) (y : list Z)
  | EvFit (est : estimator) (params : assignment) (X : list (list Q)) (y : list Z)
  | EvScore (model : fitted) (X : list (list Q)) (y : list Z).

Record world := {
  heap : list ArticleDB.t;
  stdout : list line;
  calls : list event;
  rng : Z
}.

Definition Py (A : Type) : Type := world → outcome A * world.

Global Instance Py_ret : MRet Py := λ A a w, (Ok a, w).
Global Instance Py_bind : MBind Py := λ A B f m w,
  match m w with
  | (Ok a, w') => f a w'
  | (Raise e, w') => (Raise e, w')
  end.

Definition raise {A} (e : exn) : Py A := λ w, (Raise e, w).

Definition lift {A} (o : outcome A) : Py A := λ w, (o, w).

Definition print (l : line) : Py unit := λ w,
  (Ok (), {| heap := heap w; stdout := stdout w ++ [l]; calls := calls w; rng := rng w |}).

Definition log (ev : event) : Py unit := λ w,
  (Ok (), {| heap := heap w; stdout := stdout w; calls := calls w ++ [ev]; rng := rng w |}).

(** A library routine that draws from the global random generator. *)
Definition random {A} (f : Z → outcome A * Z) : Py A := λ w,
  let '(o, g) := f (rng w) in
  (o, {| heap := heap w; stdout := stdout w; calls := calls w; rng := g |}).

(** [data.attr] *)
Definition getattr {A} (data : loc) (attr : ArticleDB.t → A) : Py A := λ w,
  match heap w !! data with
  | Some d => (Ok (attr d), w)
  | None => (Raise ReferenceError, w)
  end.

(** A constructor call: the new object gets the next free location. *)
Definition new (d : ArticleDB.t) : Py loc := λ w,
  (Ok (length (heap w)),
   {| heap := heap w ++ [d]; stdout := stdout w; calls := calls w; rng := rng w |}).

(** [for x in xs: body] *)
Fixpoint for_each {A} (xs : list A) (body : A → Py unit) : Py unit :=
  match xs with
  | [] => mret ()
  | x :: xs' => body x ;; for_each xs' body
  end.

(** [range(n)] *)
Definition range (n : nat) : list nat := seq 0 n.

(** ** What the libraries and the absent data loader decide *)

Record Library := {
  (** [ArticleDB(domain_endings=.., author=..)], of [code/article_db.py] *)
  ArticleDB_init : bool → bool → outcome ArticleDB.t;
  (** the selection inside [np.argpartition] *)
  introselect : list Q → nat → list nat;
  (** [train_test_split(X, y, test_size=.., random_state=..)] *)
  train_test_split : list (list Q) → list Z → Q → option Z → Z → outcome split * Z;
  (** the mean cross-validated score of an estimator under an assignment *)
  cross_val_score : estimator → assignment → list (list Q) → list Z → Z → outcome Q * Z;
  (** fitting an estimator, under an assignment, on a training set *)
  fit : estimator → assignment → list (list Q) → list Z → Z → outcome fitted * Z;
  (** the accuracy of a fitted estimator on a test set *)
  score : fitted → list (list Q) → list Z → outcome Q;
  (** [repr(learner)] *)
  repr : estimator → string
}.

(** ** Strings: [str.find] and [s[:stop]] *)

Fixpoint str_find (c : Ascii.ascii) (s : string) : Z :=
  match s with
  | EmptyString => (-1)%Z
  | String a s' =>
      if Ascii.eqb a c then 0%Z
      else let i := str_find c s' in if (i <? 0)%Z then (-1)%Z else (i + 1)%Z
  end.

Definition str_slice_to (s : string) (stop : Z) : string :=
  let n := Z.of_nat (String.length s) in
  let stop' := if (stop <? 0)%Z then Z.max 0 (stop + n) else Z.min stop n in
  String.substring 0 (Z.to_nat stop') s.

(** ** Grid search *)

(** Modelled from the spec: candidate enumeration of scikit-learn's
    [GridSearchCV], "exhaustive search over a specified set of
    hyperparameter combinations": every combination of one candidate value
    per name; "empty mapping means no search (single default
    configuration)". *)
Fixpoint ParameterGrid (grid : param_grid) : list assignment :=
  match grid with
  | [] => [[]]
  | (name, candidates) :: grid' =>
      v ← candidates; (λ a, (name, v) :: a) <$> ParameterGrid grid'
  end.

(** The combination "with best mean cross-validated score", the earliest
    one among equals. *)
Fixpoint best_candidate (scored : list (assignment * Q)) : option (assignment * Q) :=
  match scored with
  | [] => None
  | (a, s) :: rest =>
      match best_candidate rest with
      | Some (a', s') => if Qle_bool s' s then Some (a, s) else Some (a', s')
      | None => Some (a, s)
      end
  end.

(** ** The importance extractor (source lines 39-43) *)

Definition variable_importance (estimator : fitted) : value :=
  match coef_ estimator with
  | Some coef => coef
  | None =>
      match feature_importances_ estimator with
      | Some imp => imp
      | None => VNone
      end
  end.

Section program.
Variable lib : Library.

(** [learner()]: the class is called with no argument. *)
Definition instantiate (learner : learner_class) : Py estimator :=
  log (EvInstantiate learner []) ;;
  mret {| est_class := learner; est_args := [] |}.

Definition call_train_test_split (X : list (list Q)) (y : list Z)
    (test_size : Q) (random_state : option Z) : Py split :=
  log (EvSplit X y test_size random_state) ;;
  random (train_test_split lib X y test_size random_state).

Definition evaluate_candidate (learner : estimator) (X : list (list Q)) (y : list Z)
    (params : assignment) : Py (assignment * Q) :=
  log (EvCrossVal learner params X y) ;;
  s ← random (cross_val_score lib learner params X y);
  mret (params, s).

(** Modelled from the spec: [GridSearchCV(learner, param_grid).fit(X, y)]
    is to "run grid search with cross-validation over the grid using the
    training partition, selecting the combination with best mean
    cross-validated score"; the fitted model "holds the best hyperparameter
    combination, the best cross-validated score, and the underlying
    best-fit estimator". *)
Definition GridSearchCV_fit (learner : estimator) (grid : param_grid)
    (X : list (list Q)) (y : list Z) : Py grid_search :=
  scored ← mapM (evaluate_candidate learner X y) (ParameterGrid grid);
  match best_candidate scored with
  | None => raise ValueError
  | Some (best, s) =>
      log (EvFit learner best X y) ;;
      est ← random (fit lib learner best X y);
      mret {| best_params_ := best; best_score_ := s; best_estimator_ := est |}
  end.

(** [model.score(X_test, y_test)] *)
Definition model_score (model : grid_search) (X : list (list Q)) (y : list Z) : Py Q :=
  log (EvScore (best_estimator_ model) X y) ;;
  lift (score lib (best_estimator_ model) X y).

(** [ArticleDB(domain_endings=.., author=..)] *)
Definition ArticleDB_new (domain_endings author : bool) : Py loc :=
  log (EvArticleDB domain_endings author) ;;
  d ← lift (ArticleDB_init lib domain_endings author);
  new d.

(** *** The trainer (source lines 16-36) *)

(** Lines 20-28: fit, score, and the three lines about accuracy. *)
Definition train_and_score (data : loc) (learner : learner_class)
    (grid : param_grid) : Py grid_search :=
  log (EvTrainModel data learner grid) ;;
  learner ← instantiate learner;
  X ← getattr data ArticleDB.X;
  y ← getattr data ArticleDB.y;
  s ← call_train_test_split X y 0.2%Q None;
  model ← GridSearchCV_fit learner grid (X_train s) (y_train s);
  accuracy ← model_score model (X_test s) (y_test s);
  let learner_repr :=
    str_slice_to (repr lib learner) (str_find "("%char (repr lib learner)) in
  print (HeaderLine learner_repr (best_params_ model)) ;;
  print (ValAccuracyLine (best_score_ model)) ;;
  print (TestAccuracyLine accuracy) ;;
  mret model.

(** Line 30 *)
Definition top_10_vars (var_imp : value) : outcome indices :=
  slice_last_10 <$> np_argpartition (introselect lib) var_imp (-10).

(** Lines 33-36: the body of the loop. *)
Definition print_feature (data : loc) (var_imp : value) (top_10 : indices)
    (rank : nat) : Py unit :=
  feature_col ← lift (indices_getitem top_10 rank);
  column_number ← getattr data ArticleDB.column_number;
  feature_name ← lift (dict_getitem column_number feature_col);
  feature_score ← lift (value_getitem var_imp feature_col);
  print (FeatureLine (rank + 1) feature_name feature_score).

(** Lines 30-36 *)
Definition print_top_10 (data : loc) (var_imp : value) : Py unit :=
  top_10 ← lift (top_10_vars var_imp);
  print MostImportantLine ;;
  for_each (range 10) (print_feature data var_imp top_10).

Definition train_model (data : loc) (learner : learner_class)
    (grid : param_grid) : Py value :=
  model ← train_and_score data learner grid;
  let var_imp := variable_importance (best_estimator_ model) in
  print_top_10 data var_imp ;;
  mret VNone.

(** *** The driver (source lines 46-54) *)

Definition article_trainers : Py value :=
  articles ← ArticleDB_new false false;
  train_model articles DecisionTreeClassifier [] ;;
  train_model articles MultinomialNB
    [("alpha", [PyFloat 0.1; PyFloat 1.0; PyFloat 10.0; PyFloat 100.0])] ;;
  train_model articles LogisticRegression
    [("C", [PyFloat 0.01; PyFloat 0.1; PyInt 1; PyInt 10; PyInt 100])] ;;
  mret VNone.
End program.

(** ** numpy's contract for the selection *)

(** [r] is a result of partitioning [v] around position [k]: an arrangement
    of all the indices of [v] in which the index at [k] is where a sort
    would put it; no index before it has a greater score, none behind it
    a smaller one.  The order on either side is left open. *)
Definition partitioned (v : list Q) (k : nat) (r : list nat) : Prop :=
  r ≡ₚ seq 0 (length v) ∧
  ∀ i a p x z,
    r !! k = Some p → r !! i = Some a → v !! p = Some z → v !! a = Some x →
    (i < k → (x <= z)%Q) ∧ (k < i → (z <= x)%Q).

Definition introselect_contract (sel : list Q → nat → list nat) : Prop :=
  ∀ v k, k < length v → partitioned v k (sel v k).

(** The ten columns of [t] hold ten greatest scores of [v]. *)
Definition ten_greatest (v : list Q) (t : list nat) : Prop :=
  length t = 10 ∧ NoDup t ∧
  (∀ c, c ∈ t → c < length v) ∧
  ∀ c j x z, c ∈ t → j ∉ t → v !! c = Some x → v !! j = Some z → (z <= x)%Q.

(** Scores never increase down the list: a ranking by descending score. *)
Definition descending_scores (v : list Q) (t : list nat) : Prop :=
  ∀ i j a b x z,
    i < j → t !! i = Some a → t !! j = Some b → v !! a = Some x → v !! b = Some z →
    (z <= x)%Q.

(** ** A selection that meets the contract: a full sort *)

Definition score_of (v : list Q) (c : nat) : Q := default 0%Q (v !! c).

Definition score_le (v : list Q) (a b : nat) : Prop :=
  Qle_bool (score_of v a) (score_of v b) = true.

Global Instance score_le_dec v a b : Decision (score_le v a b) :=
  bool_eq_dec (Qle_bool (score_of v a) (score_of v b)) true.

Definition argsort (v : list Q) (k : nat) : list nat :=
  merge_sort (score_le v) (seq 0 (length v)).

(** ** scikit-learn's contract for the split *)

(** Whenever [train_test_split] returns, the rows and the labels are divided
    between the two partitions, row and label together, and the test
    partition holds [test_size] of the rows, rounded up. *)
Definition split_contract (lib : Library) : Prop :=
  ∀ X y test_size random_state g s g',
    train_test_split lib X y test_size random_state g = (Ok s, g') →
    length (y_train s) = length (X_train s) ∧
    length (y_test s) = length (X_test s) ∧
    zip (X_train s) (y_train s) ++ zip (X_test s) (y_test s) ≡ₚ zip X y ∧
    Z.of_nat (length (X_test s)) =
      Qceiling (test_size * inject_Z (Z.of_nat (length X))).

(** ** Reading the trace *)

(** The entries of [train_model] among the calls: which object, which
    class, which grid. *)
Definition trainer_calls (evs : list event) : list (loc * learner_class * param_grid) :=
  omap (λ ev, match ev with
              | EvTrainModel data learner grid => Some (data, learner, grid)
              | _ => None
              end) evs.

(** The dataset constructions among the calls, with their two toggles. *)
Definition dataset_calls (evs : list event) : list (bool * bool) :=
  omap (λ ev, match ev with
              | EvArticleDB domain_endings author => Some (domain_endings, author)
              | _ => None
              end) evs.

(** The classes instantiated, with the arguments given. *)
Definition instantiations (evs : list event) : list (learner_class * assignment) :=
  omap (λ ev, match ev with
              | EvInstantiate learner args => Some (learner, args)
              | _ => None
              end) evs.

(** The configurations cross-validated: which estimator, under which
    assignment. *)
Definition candidates_tried (evs : list event) : list (estimator * assignment) :=
  omap (λ ev, match ev with
              | EvCrossVal est params _ _ => Some (est, params)
              | _ => None
              end) evs.

(** The fits of the search's best estimator. *)
Definition fits (evs : list event) : list (estimator * assignment) :=
  omap (λ ev, match ev with
              | EvFit est params _ _ => Some (est, params)
              | _ => None
              end) evs.

(** A call of the search or of the scoring that is given the partition it
    should be given: the training partition to cross-validate and to fit,
    the test partition to score. *)
Definition on_partitions (s : split) (ev : event) : Prop :=
  match ev with
  | EvCrossVal _ _ X y | EvFit _ _ X y => X = X_train s ∧ y = y_train s
  | EvScore _ X y => X = X_test s ∧ y = y_test s
  | _ => False
  end.

Definition is_library_call (ev : event) : Prop :=
  match ev with
  | EvArticleDB _ _ | EvTrainModel _ _ _ => False
  | _ => True
  end.

(** The lines of a feature ranking. *)
Definition is_ranking_line (l : line) : Prop :=
  match l with
  | MostImportantLine | FeatureLine _ _ _ => True
  | _ => False
  end.

(** The world [train_model] has made by the time it calls the split. *)
Definition at_split (w : world) (data : loc) (learner : learner_class)
    (grid : param_grid) (d : ArticleDB.t) : world :=
  {| heap := heap w; stdout := stdout w;
     calls := calls w ++ [EvTrainModel data learner grid; EvInstantiate learner [];
                          EvSplit (ArticleDB.X d) (ArticleDB.y d) 0.2%Q None];
     rng := rng w |}.

Definition with_rng (w : world) (g : Z) : world :=
  {| heap := heap w; stdout := stdout w; calls := calls w; rng := g |}.

(** Lines 23-28 of [train_and_score]: what it does once the split has
    returned [s]. *)
Definition after_split (lib : Library) (learner : learner_class) (grid : param_grid)
    (s : split) : Py grid_search :=
  let learner := {| est_class := learner; est_args := [] |} in
  model ← GridSearchCV_fit lib learner grid (X_train s) (y_train s);
  accuracy ← model_score lib model (X_test s) (y_test s);
  let learner_repr :=
    str_slice_to (repr lib learner) (str_find "("%char (repr lib learner)) in
  print (HeaderLine learner_repr (best_params_ model)) ;;
  print (ValAccuracyLine (best_score_ model)) ;;
  print (TestAccuracyLine accuracy) ;;
  mret model.

(** ** A small library to run the program on *)

(** Eleven coefficients: the first is negative and by far the greatest in
    magnitude, the other ten are positive and small. *)
Definition signed_coefficients : list Q :=
  [(-1000)%Q; 1%Q; 2%Q; 3%Q; 4%Q; 5%Q; 6%Q; 7%Q; 8%Q; 9%Q; 10%Q].

Definition toy_row : list Q := signed_coefficients.

Definition toy_db : ArticleDB.t :=
  {| ArticleDB.X := replicate 10 toy_row;
     ArticleDB.y := [0; 1; 0; 1; 0; 1; 0; 1; 0; 1]%Z;
     ArticleDB.column_number :=
       map_seq 0 ["url"; "title"; "body"; "date"; "links"; "images";
                  "words"; "quotes"; "caps"; "tags"; "length"] |}.

Definition toy_split (X : list (list Q)) (y : list Z) (test_size : Q)
    (random_state : option Z) (g : Z) : outcome split * Z :=
  let n_test := Z.to_nat (Qceiling (test_size * inject_Z (Z.of_nat (length X)))) in
  if decide (length X = length y ∧ 0 < n_test < length X) then
    (Ok {| X_train := drop n_test X; X_test := take n_test X;
           y_train := drop n_test y; y_test := take n_test y |}, (g + 1)%Z)
  else (Raise ValueError, g).

(** What a fitted estimator exposes: as scikit-learn has it (importances of a
    tree are a vector, coefficients of a linear model a matrix of one row
    per class), or a vector throughout. *)
Definition sklearn_shape (c : learner_class) (v : list Q) : fitted :=
  match c with
  | DecisionTreeClassifier => {| coef_ := None; feature_importances_ := Some (VArr1 v) |}
  | MultinomialNB | LogisticRegression =>
      {| coef_ := Some (VArr2 [v]); feature_importances_ := None |}
  | OtherClassifier _ => {| coef_ := None; feature_importances_ := None |}
  end.

Definition flat_shape (c : learner_class) (v : list Q) : fitted :=
  match c with
  | DecisionTreeClassifier => {| coef_ := None; feature_importances_ := Some (VArr1 v) |}
  | _ => {| coef_ := Some (VArr1 v); feature_importances_ := None |}
  end.

Definition toy_repr (learner : estimator) : string :=
  match est_class learner with
  | DecisionTreeClassifier => "DecisionTreeClassifier(criterion='gini')"
  | MultinomialNB => "MultinomialNB(alpha=1.0)"
  | LogisticRegression => "LogisticRegression(C=1.0)"
  | OtherClassifier name => name
  end.

Definition toy (shape : learner_class → list Q → fitted) : Library :=
  {| ArticleDB_init := λ _ _, Ok toy_db;
     introselect := argsort;
     train_test_split := toy_split;
     cross_val_score := λ _ _ _ _ g, (Ok 0.5%Q, (g + 1)%Z);
     fit := λ learner _ X _ g, (Ok (shape (est_class learner) (default [] (head X))), (g + 1)%Z);
     score := λ _ _ _, Ok 0.9%Q;
     repr := toy_repr |}.

(** A library whose data loader, split, search or scoring fails. *)
Definition failing (what : string) : Library :=
  {| ArticleDB_init := λ _ _,
       if String.eqb what "load" then Raise (Exception "IOError") else Ok toy_db;
     introselect := argsort;
     train_test_split := λ X y test_size random_state g,
       if String.eqb what "split" then (Raise ValueError, g)
       else toy_split X y test_size random_state g;
     cross_val_score := λ _ _ _ _ g,
       if String.eqb what "search" then (Raise (Exception "FitFailed"), g)
       else (Ok 0.5%Q, (g + 1)%Z);
     fit := λ learner _ X _ g,
       (Ok (flat_shape (est_class learner) (default [] (head X))), (g + 1)%Z);
     score := λ _ _ _,
       if String.eqb what "score" then Raise (Exception "ScoreFailed") else Ok 0.9%Q;
     repr := toy_repr |}.

Definition empty_world : world :=
  {| heap := []; stdout := []; calls := []; rng := 0%Z |}.

(** A world in which the dataset has been constructed already. *)
Definition toy_world : world :=
  {| heap := [toy_db]; stdout := []; calls := []; rng := 0%Z |}.

(** ** Reading the output *)

(** Nothing was printed. *)
Definition same_stdout : relation world := λ w w', stdout w' = stdout w.

(** A dataset that names two columns only. *)
Definition sparse_db : ArticleDB.t :=
  {| ArticleDB.X := []; ArticleDB.y := [];
     ArticleDB.column_number := {[1 := "title"; 2 := "body"]} |}.

Definition sparse_world : world :=
  {| heap := [sparse_db]; stdout := []; calls := []; rng := 0%Z |}.

(** ** Running a computation step by step *)

Lemma bind_ok {A B} (m : Py A) (k : A → Py B) w a w' :
  m w = (Ok a, w') → (m ≫= k) w = k a w'.
Proof. intros Hm. unfold mbind, Py_bind. rewrite Hm. reflexivity. Qed.

Lemma bind_raise {A B} (m : Py A) (k : A → Py B) w e w' :
  m w = (Raise e, w') → (m ≫= k) w = (Raise e, w').
Proof. intros Hm. unfold mbind, Py_bind. rewrite Hm. reflexivity. Qed.

(** There is no handler: what a computation raises, every computation built
    on it raises, and nothing of the rest runs. *)
Lemma bind_inv {A B} (m : Py A) (k : A → Py B) w o w' :
  (m ≫= k) w = (o, w') →
  (∃ a w1, m w = (Ok a, w1) ∧ k a w1 = (o, w')) ∨
  (∃ e, m w = (Raise e, w') ∧ o = Raise e).
Proof.
  unfold mbind, Py_bind. destruct (m w) as [[a|e] w1]; intros Hk.
  - left. eauto.
  - right. exists e. by injection Hk as <- <-.
Qed.

(** ** Relating the world before a computation with the world after *)

(** [steps R m]: whatever [m] does, returning or raising, it takes a world
    to one that is [R]-related to it. *)
Definition steps (R : relation world) {A} (m : Py A) : Prop :=
  ∀ w, R w (m w).2.

Section steps.
Context (R : relation world) `{!PreOrder R}.

Lemma steps_ret {A} (a : A) : steps R (mret a).
Proof. intros w. simpl. reflexivity. Qed.

Lemma steps_raise {A} (e : exn) : steps R (raise e : Py A).
Proof. intros w. simpl. reflexivity. Qed.

Lemma steps_lift {A} (o : outcome A) : steps R (lift o).
Proof. intros w. simpl. reflexivity. Qed.

Lemma steps_getattr {A} data (attr : ArticleDB.t → A) : steps R (getattr data attr).
Proof. intros w. unfold getattr. destruct (heap w !! data); simpl; reflexivity. Qed.

Lemma steps_bind {A B} (m : Py A) (k : A → Py B) :
  steps R m → (∀ a, steps R (k a)) → steps R (m ≫= k).
Proof.
  intros Hm Hk w. specialize (Hm w). unfold mbind, Py_bind.
  destruct (m w) as [[a|e] w1]; simpl in *; [|done].
  etrans; [exact Hm | apply Hk].
Qed.

Lemma steps_mapM {A B} (f : A → Py B) (l : list A) :
  (∀ a, steps R (f a)) → steps R (mapM f l).
Proof.
  intros Hf. induction l as [|a l IH]; simpl.
  - apply steps_ret.
  - apply steps_bind; [apply Hf|]. intros b.
    apply steps_bind; [apply IH|]. intros bs. apply steps_ret.
Qed.

Lemma steps_for_each {A} (body : A → Py unit) (l : list A) :
  (∀ a, steps R (body a)) → steps R (for_each l body).
Proof.
  intros Hf. induction l as [|a l IH]; simpl.
  - apply steps_ret.
  - apply steps_bind; [apply Hf|]. intros _. apply IH.
Qed.
End steps.

(** The three relations in use: the objects are as they were; calls were
    added, all of them of one kind; lines were added, all of one kind. *)
Definition same_heap : relation world := λ w w', heap w' = heap w.

Definition more_calls (P : event → Prop) : relation world := λ w w',
  ∃ evs, calls w' = calls w ++ evs ∧ Forall P evs.

Definition more_lines (P : line → Prop) : relation world := λ w w',
  ∃ ls, stdout w' = stdout w ++ ls ∧ Forall P ls.

Global Instance same_heap_preorder : PreOrder same_heap.
Proof.
  split; [intros w; reflexivity|]. intros w1 w2 w3. unfold same_heap. congruence.
Qed.

Global Instance more_calls_preorder P : PreOrder (more_calls P).
Proof.
  split.
  - intros w. exists []. by rewrite app_nil_r.
  - intros w1 w2 w3 (evs1 & H1 & HP1) (evs2 & H2 & HP2). exists (evs1 ++ evs2).
    rewrite H2, H1, <- app_assoc. split; [done|]. by apply Forall_app.
Qed.

Global Instance more_lines_preorder P : PreOrder (more_lines P).
Proof.
  split.
  - intros w. exists []. by rewrite app_nil_r.
  - intros w1 w2 w3 (ls1 & H1 & HP1) (ls2 & H2 & HP2). exists (ls1 ++ ls2).
    rewrite H2, H1, <- app_assoc. split; [done|]. by apply Forall_app.
Qed.

Lemma same_heap_print l : steps same_heap (print l).
Proof. intros w. reflexivity. Qed.

Lemma same_heap_log ev : steps same_heap (log ev).
Proof. intros w. reflexivity. Qed.

Lemma same_heap_random {A} (f : Z → outcome A * Z) : steps same_heap (random f).
Proof. intros w. unfold random. destruct (f (rng w)). reflexivity. Qed.

Lemma more_calls_print P l : steps (more_calls P) (print l).
Proof. intros w. exists []. simpl. by rewrite app_nil_r. Qed.

Lemma more_calls_log (P : event → Prop) ev : P ev → steps (more_calls P) (log ev).
Proof. intros HP w. exists [ev]. simpl. split; [done|]. by constructor. Qed.

Lemma more_calls_random P {A} (f : Z → outcome A * Z) : steps (more_calls P) (random f).
Proof.
  intros w. unfold random. destruct (f (rng w)). exists []. simpl. by rewrite app_nil_r.
Qed.

Lemma more_calls_new P d : steps (more_calls P) (new d).
Proof. intros w. exists []. simpl. by rewrite app_nil_r. Qed.

Lemma more_lines_print (P : line → Prop) l : P l → steps (more_lines P) (print l).
Proof. intros HP w. exists [l]. simpl. split; [done|]. by constructor. Qed.

Lemma more_lines_log P ev : steps (more_lines P) (log ev).
Proof. intros w. exists []. simpl. by rewrite app_nil_r. Qed.

Lemma more_lines_random P {A} (f : Z → outcome A * Z) : steps (more_lines P) (random f).
Proof.
  intros w. unfold random. destruct (f (rng w)). exists []. simpl. by rewrite app_nil_r.
Qed.

Create HintDb py discriminated.
#[export] Hint Resolve steps_ret steps_raise steps_lift steps_getattr
  same_heap_print same_heap_log same_heap_random
  more_calls_print more_calls_random more_calls_new
  more_lines_log more_lines_random : py.

(** Walk down a chain of binds, closing each primitive from the hints. *)
Ltac py_steps :=
  repeat first
    [ apply steps_bind; [apply _| |intros ?]
    | apply steps_mapM; [apply _|intros ?]
    | apply steps_for_each; [apply _|intros ?]
    | apply more_calls_log; simpl; done
    | apply more_lines_print; simpl; done
    | progress eauto with py typeclass_instances
    | progress cbv zeta
    | case_match ].

(** ** What every run of the trainer does to the world *)

Section runs.
Variable lib : Library.

Lemma GridSearchCV_fit_same_heap learner grid X y :
  steps same_heap (GridSearchCV_fit lib learner grid X y).
Proof. unfold GridSearchCV_fit, evaluate_candidate. py_steps. Qed.

Lemma print_top_10_same_heap data var_imp :
  steps same_heap (print_top_10 lib data var_imp).
Proof. unfold print_top_10, print_feature. py_steps. Qed.

Lemma train_and_score_same_heap data learner grid :
  steps same_heap (train_and_score lib data learner grid).
Proof.
  unfold train_and_score, instantiate, call_train_test_split, model_score.
  py_steps.
Qed.

Lemma train_model_same_heap data learner grid :
  steps same_heap (train_model lib data learner grid).
Proof.
  unfold train_model. py_steps; auto using train_and_score_same_heap, print_top_10_same_heap.
Qed.

Lemma GridSearchCV_fit_calls learner grid X y :
  steps (more_calls is_library_call) (GridSearchCV_fit lib learner grid X y).
Proof. unfold GridSearchCV_fit, evaluate_candidate. py_steps. Qed.

Lemma print_top_10_calls P data var_imp :
  steps (more_calls P) (print_top_10 lib data var_imp).
Proof. unfold print_top_10, print_feature. py_steps. Qed.

(** A run of the trainer records its own entry, and after it calls of the
    libraries only. *)
Lemma train_model_calls data learner grid w :
  ∃ evs, calls (train_model lib data learner grid w).2
         = calls w ++ EvTrainModel data learner grid :: evs
       ∧ Forall is_library_call evs.
Proof.
  pose (rest :=
    learner' ← instantiate learner;
    X ← getattr data ArticleDB.X;
    y ← getattr data ArticleDB.y;
    s ← call_train_test_split lib X y 0.2%Q None;
    model ← GridSearchCV_fit lib learner' grid (X_train s) (y_train s);
    accuracy ← model_score lib model (X_test s) (y_test s);
    print (HeaderLine
             (str_slice_to (repr lib learner') (str_find "("%char (repr lib learner')))
             (best_params_ model)) ;;
    print (ValAccuracyLine (best_score_ model)) ;;
    print (TestAccuracyLine accuracy) ;;
    mret model).
  pose (w1 := {| heap := heap w; stdout := stdout w;
                 calls := calls w ++ [EvTrainModel data learner grid];
                 rng := rng w |}).
  assert (train_model lib data learner grid w
          = (rest ≫= λ model,
               print_top_10 lib data (variable_importance (best_estimator_ model)) ;;
               mret VNone) w1) as -> by reflexivity.
  assert (steps (more_calls is_library_call)
            (rest ≫= λ model,
               print_top_10 lib data (variable_importance (best_estimator_ model)) ;;
               mret VNone)) as Hrest.
  { unfold rest, instantiate, call_train_test_split, model_score.
    py_steps; auto using GridSearchCV_fit_calls, print_top_10_calls. }
  destruct (Hrest w1) as (evs & Hcalls & Hall). exists evs. split; [|done].
  rewrite Hcalls. simpl. by rewrite <- app_assoc.
Qed.
End runs.

Lemma normalize_kth_10 n size : 10 ≤ n → normalize_kth (-10) n size = Ok (n - 10).
Proof.
  intros Hn. unfold normalize_kth. change (-10 <? 0)%Z with true. cbv iota.
  destruct (Z.ltb_spec (-10 + Z.of_nat n) 0); [lia|].
  destruct (Z.leb_spec (Z.of_nat n) (-10 + Z.of_nat n)); [lia|].
  rewrite andb_false_r. f_equal. lia.
Qed.

Lemma normalize_kth_few n size :
  n < 10 → size ≠ 0 → normalize_kth (-10) n size = Raise ValueError.
Proof.
  intros Hn Hsize. unfold normalize_kth. change (-10 <? 0)%Z with true. cbv iota.
  destruct (Nat.eqb_spec size 0); [done|].
  destruct (Z.ltb_spec (-10 + Z.of_nat n) 0); [reflexivity|lia].
Qed.

Lemma normalize_kth_empty kth n : ∃ k, normalize_kth kth n 0 = Ok k.
Proof. unfold normalize_kth. simpl. eauto. Qed.

Lemma array_size_0 m : array_size m = 0 → Forall (λ row, row = []) m.
Proof.
  unfold array_size. induction m as [|row m IH]; [constructor|].
  simpl. intros Hsum. constructor; [|apply IH; lia].
  destruct row; [done|]. simpl in Hsum. lia.
Qed.

Lemma last_10_length {A} (l : list A) : 10 ≤ length l → length (last_10 l) = 10.
Proof. intros Hl. unfold last_10. rewrite length_drop. lia. Qed.

Lemma last_10_lookup {A} (l : list A) i :
  last_10 l !! i = l !! (length l - 10 + i).
Proof. unfold last_10. apply lookup_drop. Qed.

Lemma last_10_short {A} (l : list A) : length l ≤ 10 → last_10 l = l.
Proof. intros Hl. unfold last_10. replace (length l - 10) with 0 by lia. reflexivity. Qed.

Section selection.
Variable sel : list Q → nat → list nat.
Hypothesis sel_ok : introselect_contract sel.

Lemma sel_length v k : k < length v → length (sel v k) = length v.
Proof.
  intros Hk. destruct (sel_ok v k Hk) as [Hp _].
  rewrite (Permutation_length Hp). apply length_seq.
Qed.

Lemma sel_elem_of v k c : k < length v → c ∈ sel v k ↔ c < length v.
Proof.
  intros Hk. destruct (sel_ok v k Hk) as [Hp _].
  rewrite Hp, elem_of_seq. lia.
Qed.

Lemma sel_NoDup v k : k < length v → NoDup (sel v k).
Proof.
  intros Hk. destruct (sel_ok v k Hk) as [Hp _].
  rewrite Hp. apply NoDup_seq.
Qed.

(** Whatever the routine leaves before position [k] scores no more than
    whatever it leaves from [k] on. *)
Lemma sel_split v k i j a b x z :
  k < length v → i < k → k ≤ j →
  sel v k !! i = Some a → sel v k !! j = Some b →
  v !! a = Some x → v !! b = Some z → (x <= z)%Q.
Proof.
  intros Hk Hi Hj Ha Hb Hx Hz.
  destruct (sel_ok v k Hk) as [Hp Hpart].
  assert (is_Some (sel v k !! k)) as [p Hpk].
  { apply lookup_lt_is_Some. rewrite sel_length; done. }
  assert (p < length v) as Hplt.
  { apply (sel_elem_of v k p Hk). eapply list_elem_of_lookup_2; done. }
  apply lookup_lt_is_Some in Hplt as [y Hy].
  destruct (Hpart i a p x y Hpk Ha Hy Hx) as [Hlow _].
  destruct (decide (j = k)) as [->|Hne].
  - assert (b = p) as -> by congruence.
    assert (z = y) as -> by congruence. auto.
  - destruct (Hpart j b p z y Hpk Hb Hy Hz) as [_ Hhigh].
    apply Qle_trans with y; [auto | apply Hhigh; lia].
Qed.

Lemma sel_ten_greatest v :
  10 ≤ length v → ten_greatest v (last_10 (sel v (length v - 10))).
Proof.
  intros Hn. set (k := length v - 10). assert (k < length v) as Hk by lia.
  set (r := sel v k). assert (length r = length v) as Hr by (apply sel_length; done).
  assert (last_10 r = drop k r) as Ht by (unfold last_10; rewrite Hr; done).
  rewrite Ht. repeat split.
  - rewrite length_drop. lia.
  - apply (NoDup_app (take k r) (drop k r)). rewrite take_drop. apply sel_NoDup; done.
  - intros c Hc. apply (sel_elem_of v k c Hk).
    rewrite <- (take_drop k (sel v k)). apply elem_of_app. right. done.
  - intros c j x z Hc Hj Hx Hz.
    apply list_elem_of_lookup_1 in Hc as [i' Hi'].
    rewrite lookup_drop in Hi'.
    assert (j ∈ r) as Hjr.
    { apply sel_elem_of; [done|]. apply lookup_lt_is_Some. eauto. }
    rewrite <- (take_drop k r) in Hjr. apply elem_of_app in Hjr as [Hjr|Hjr]; [|done].
    apply list_elem_of_lookup_1 in Hjr as [i Hi].
    assert (i < k) as Hik.
    { apply lookup_lt_Some in Hi. rewrite length_take in Hi. lia. }
    rewrite lookup_take_lt in Hi by done.
    eapply (sel_split v k i (k + i') j c); eauto; lia.
Qed.
End selection.

(** ** The stable sort meets the contract *)

Global Instance score_le_trans v : Transitive (score_le v).
Proof.
  intros a b c. unfold score_le. rewrite !Qle_bool_iff. apply Qle_trans.
Qed.

Global Instance score_le_total v : Total (score_le v).
Proof.
  intros a b. unfold score_le. rewrite !Qle_bool_iff.
  destruct (Qlt_le_dec (score_of v a) (score_of v b)) as [Hlt|Hle]; [left|right]; [|done].
  apply Qlt_le_weak. done.
Qed.

Lemma StronglySorted_lookup {A} (R : relation A) (l : list A) i j a b :
  StronglySorted R l → i < j → l !! i = Some a → l !! j = Some b → R a b.
Proof.
  intros Hs. revert i j. induction Hs as [|x l Hs IH Hall]; intros i j Hij Ha Hb.
  - rewrite lookup_nil in Ha. discriminate.
  - destruct j as [|j]; [lia|]. simpl in Hb. destruct i as [|i]; simpl in Ha.
    + injection Ha as <-. rewrite Forall_forall in Hall. apply Hall.
      eapply list_elem_of_lookup_2. done.
    + apply (IH i j); [lia|done|done].
Qed.

Lemma argsort_contract : introselect_contract argsort.
Proof.
  intros v k Hk. unfold argsort. split.
  - apply merge_sort_Permutation.
  - intros i a p x z Hp Ha Hz Hx.
    pose proof (StronglySorted_merge_sort (score_le v) (seq 0 (length v))) as Hs.
    assert (score_of v a = x) as Hax by (unfold score_of; rewrite Hx; done).
    assert (score_of v p = z) as Hpz by (unfold score_of; rewrite Hz; done).
    split; intros Hik.
    + pose proof (StronglySorted_lookup _ _ i k a p Hs Hik Ha Hp) as Hle.
      unfold score_le in Hle. rewrite Qle_bool_iff, Hax, Hpz in Hle. done.
    + pose proof (StronglySorted_lookup _ _ k i p a Hs Hik Hp Ha) as Hle.
      unfold score_le in Hle. rewrite Qle_bool_iff, Hax, Hpz in Hle. done.
Qed.

(** ** The importance step: what it needs, and when it fails *)

Lemma mapM_outcome_Forall2 {A B} (f : A → outcome B) (l : list A) (k : list B) :
  mapM f l = Ok k → Forall2 (λ a b, f a = Ok b) l k.
Proof.
  revert k. induction l as [|a l IH]; intros k; simpl.
  - intros [= <-]. constructor.
  - unfold mbind, outcome_bind. destruct (f a) as [b|e] eqn:Hfa; [|done].
    destruct (mapM f l) as [bs|e]; [|done]. intros [= <-]. constructor; auto.
Qed.

Section importance.
Variable lib : Library.

Lemma train_model_after_score data learner grid w model w1 :
  train_and_score lib data learner grid w = (Ok model, w1) →
  train_model lib data learner grid w
  = (print_top_10 lib data (variable_importance (best_estimator_ model)) ;; mret VNone) w1.
Proof.
  intros Hrun. unfold train_model. etrans; [apply bind_ok; exact Hrun|]. reflexivity.
Qed.

Lemma print_top_10_raise data var_imp e w :
  top_10_vars lib var_imp = Raise e →
  print_top_10 lib data var_imp w = (Raise e, w).
Proof. intros Htop. unfold print_top_10. rewrite Htop. reflexivity. Qed.

Lemma train_model_top_10_raise data learner grid w model w1 e :
  train_and_score lib data learner grid w = (Ok model, w1) →
  top_10_vars lib (variable_importance (best_estimator_ model)) = Raise e →
  train_model lib data learner grid w = (Raise e, w1).
Proof.
  intros Hrun Htop. rewrite (train_model_after_score _ _ _ _ _ _ Hrun).
  apply bind_raise. apply print_top_10_raise. exact Htop.
Qed.

Lemma train_and_score_lines data learner grid :
  steps (more_lines (λ l, ¬ is_ranking_line l)) (train_and_score lib data learner grid).
Proof.
  unfold train_and_score, instantiate, call_train_test_split, model_score,
    GridSearchCV_fit, evaluate_candidate.
  py_steps; apply more_lines_print; simpl; tauto.
Qed.


(** Of no score at all the selection is empty, and nothing is raised. *)
Lemma top_10_vars_empty : top_10_vars lib (VArr1 []) = Ok (IArr1 []).
Proof. reflexivity. Qed.

Lemma top_10_vars_vector v :
  10 ≤ length v →
  top_10_vars lib (VArr1 v) = Ok (IArr1 (last_10 (introselect lib v (length v - 10)))).
Proof.
  intros Hv. unfold top_10_vars. simpl. unfold argpartition_row.
  rewrite normalize_kth_10 by done. simpl.
  destruct (Nat.eqb_spec (length v) 0); [lia|]. reflexivity.
Qed.

Lemma top_10_vars_matrix m top_10 :
  top_10_vars lib (VArr2 m) = Ok top_10 →
  ∃ rs, top_10 = IArr2 (last_10 rs) ∧
        Forall2 (λ row r, (row = [] ∧ r = []) ∨
                          (10 ≤ length row ∧ r = introselect lib row (length row - 10))) m rs.
Proof.
  unfold top_10_vars. simpl.
  destruct (mapM _ m) as [rs|e] eqn:Hrows; simpl; [|done].
  intros [= <-]. exists rs. split; [done|].
  apply mapM_outcome_Forall2 in Hrows. unfold argpartition_row in Hrows.
  destruct (Nat.eqb_spec (array_size m) 0) as [Hsize|Hsize].
  - pose proof (array_size_0 m Hsize) as Hempty. rewrite Hsize in Hrows. clear Hsize.
    revert Hempty.
    induction Hrows as [|row r m' rs' Hrow Hrows IH]; intros Hempty; [constructor|].
    apply Forall_cons in Hempty as [-> Hempty]. constructor; [|by apply IH].
    left. split; [done|]. simpl in Hrow. by injection Hrow as <-.
  - eapply Forall2_impl; [exact Hrows|]. intros row r. simpl.
    destruct (decide (10 ≤ length row)) as [Hlen|Hlen].
    + rewrite normalize_kth_10 by done. simpl. intros [= <-]. right. done.
    + rewrite normalize_kth_few by lia. done.
Qed.

(** With a matrix for the importance, the first round of the loop raises. *)
Lemma print_top_10_matrix data m w : raised (print_top_10 lib data (VArr2 m) w).1.
Proof.
  unfold print_top_10.
  destruct (top_10_vars lib (VArr2 m)) as [top_10|e] eqn:Htop; [|done].
  apply top_10_vars_matrix in Htop as (rs & -> & _).
  unfold mbind, Py_bind, lift, print, range. simpl.
  unfold mbind, Py_bind, print_feature, lift, getattr. simpl.
  unfold mbind, Py_bind. simpl.
  destruct (last_10 rs !! 0) as [row|]; simpl; [|done].
  destruct (heap w !! data); simpl; done.
Qed.
End importance.

(** C2. For every fitted estimator, [variable_importance] returns the
    coefficient attribute as it is when the estimator has one; failing that,
    the feature-importances attribute as it is when the estimator has that;
    and [None] when it has neither: no vector of its own making.  In that
    last case the trainer's importance step raises at the selection, before
    any line of a ranking is printed. *)
Theorem variable_importance_contract (lib : Library) (est : fitted) :
  (∀ coef, coef_ est = Some coef → variable_importance est = coef) ∧
  (∀ imp, coef_ est = None → feature_importances_ est = Some imp →
     variable_importance est = imp) ∧
  (coef_ est = None → feature_importances_ est = None →
     variable_importance est = VNone ∧
     (∀ data w, print_top_10 lib data (variable_importance est) w = (Raise ValueError, w)) ∧
     (∀ data learner grid w model w1,
        train_and_score lib data learner grid w = (Ok model, w1) →
        best_estimator_ model = est →
        train_model lib data learner grid w = (Raise ValueError, w1) ∧
        more_lines (λ l, ¬ is_ranking_line l) w w1)).
Proof.
  unfold variable_importance. repeat split.
  - intros coef ->. done.
  - intros imp -> ->. done.
  - rewrite H, H0. done.
  - intros data w. rewrite H, H0. by apply print_top_10_raise.
  - eapply train_model_top_10_raise; [done|]. subst est.
    unfold variable_importance. rewrite H, H0. done.
  - pose proof (train_and_score_lines lib data learner grid w) as Hl.
    rewrite H1 in Hl. exact Hl.
Qed.

Fact variable_importance_contract_witness :
  variable_importance (sklearn_shape LogisticRegression toy_row) = VArr2 [toy_row] ∧
  variable_importance (sklearn_shape DecisionTreeClassifier toy_row) = VArr1 toy_row ∧
  (train_model (toy sklearn_shape) 0 (OtherClassifier "SVC") [] toy_world).1 = Raise ValueError.
Proof.
  pose proof (variable_importance_contract (toy sklearn_shape)
                (sklearn_shape LogisticRegression toy_row)) as (Hcoef & _ & _).
  pose proof (variable_importance_contract (toy sklearn_shape)
                (sklearn_shape DecisionTreeClassifier toy_row)) as (_ & Himp & _).
  pose proof (variable_importance_contract (toy sklearn_shape)
                (sklearn_shape (OtherClassifier "SVC") toy_row)) as (_ & _ & Hnone).
  split; [apply Hcoef; reflexivity|].
  split; [apply Himp; reflexivity|].
  destruct (Hnone eq_refl eq_refl) as (_ & _ & Hrun).
  destruct (train_and_score (toy sklearn_shape) 0 (OtherClassifier "SVC") [] toy_world)
    as [o w1] eqn:Hscore.
  assert (∃ model, o = Ok model ∧ best_estimator_ model
                   = sklearn_shape (OtherClassifier "SVC") toy_row) as (model & -> & Hest).
  { vm_compute in Hscore. injection Hscore as <- <-. eexists. split; reflexivity. }
  destruct (Hrun 0 (OtherClassifier "SVC") [] toy_world model w1 Hscore Hest) as [-> _].
  reflexivity.
Defined.




(** C4. When the coefficient attribute of the fitted estimator is a matrix
    (one row per class), [variable_importance] returns that matrix;
    [np.argpartition] then arranges the columns of each row (of a row with
    no column there is nothing to arrange), and [[-10:]] keeps the last ten
    of those rows, not ten columns; [top_10_vars[rank]]
    is out of bounds for every rank from the number of rows on; and the
    importance step, hence the trainer, never returns. *)
Theorem coef_matrix_breaks_top_10 (lib : Library) (est : fitted) (m : list (list Q)) :
  coef_ est = Some (VArr2 m) →
  variable_importance est = VArr2 m ∧
  (∀ top_10, top_10_vars lib (VArr2 m) = Ok top_10 →
     (∃ rs, top_10 = IArr2 (last_10 rs) ∧
            Forall2 (λ row r, (row = [] ∧ r = []) ∨
                              (10 ≤ length row ∧ r = introselect lib row (length row - 10)))
                    m rs) ∧
     (∀ rank, length m ≤ rank → indices_getitem top_10 rank = Raise IndexError)) ∧
  (∀ data w, raised (print_top_10 lib data (VArr2 m) w).1) ∧
  (∀ data learner grid w model w1,
     train_and_score lib data learner grid w = (Ok model, w1) →
     best_estimator_ model = est →
     raised (train_model lib data learner grid w).1).
Proof.
  intros Hcoef.
  assert (variable_importance est = VArr2 m) as Himp.
  { unfold variable_importance. by rewrite Hcoef. }
  split; [done|]. split; [|split].
  - intros top_10 Htop. destruct (top_10_vars_matrix lib m top_10 Htop) as (rs & -> & Hrows).
    split; [eauto|]. intros rank Hrank. simpl.
    rewrite lookup_ge_None_2; [done|].
    apply Forall2_length in Hrows. unfold last_10. rewrite length_drop. lia.
  - intros data w. apply print_top_10_matrix.
  - intros data learner grid w model w1 Hrun <-.
    rewrite (train_model_after_score lib _ _ _ _ _ _ Hrun), Himp.
    pose proof (print_top_10_matrix lib data m w1) as Hraise.
    unfold mbind, Py_bind.
    destruct (print_top_10 lib data (VArr2 m) w1) as [[[]|e] w2]; done.
Qed.

Fact coef_matrix_breaks_top_10_witness :
  variable_importance (sklearn_shape LogisticRegression toy_row) = VArr2 [toy_row] ∧
  indices_getitem (IArr2 [[0; 1; 2; 3; 4; 5; 6; 7; 8; 9; 10]]) 1 = Raise IndexError ∧
  raised (train_model (toy sklearn_shape) 0 LogisticRegression [] toy_world).1.
Proof.
  destruct (coef_matrix_breaks_top_10 (toy sklearn_shape)
              (sklearn_shape LogisticRegression toy_row) [toy_row] eq_refl)
    as (Himp & Hrows & _ & Hrun).
  split; [exact Himp|]. split.
  - destruct (Hrows (IArr2 [[0; 1; 2; 3; 4; 5; 6; 7; 8; 9; 10]])) as [_ Hout].
    + vm_compute. reflexivity.
    + apply Hout. simpl. lia.
  - destruct (train_and_score (toy sklearn_shape) 0 LogisticRegression [] toy_world)
      as [o w1] eqn:Hscore.
    assert (∃ model, o = Ok model ∧ best_estimator_ model
                     = sklearn_shape LogisticRegression toy_row) as (model & -> & Hest).
    { vm_compute in Hscore. injection Hscore as <- <-. eexists. split; reflexivity. }
    exact (Hrun 0 LogisticRegression [] toy_world model w1 Hscore Hest).
Defined.

(** ** The ranking: which ten columns, and in which order *)

Section ranking.
Variable lib : Library.
Hypothesis sel_ok : introselect_contract (introselect lib).

(** One round of the loop, for a vector of scores and a named column. *)
Lemma print_feature_run data d v t rank c name x w :
  heap w !! data = Some d →
  t !! rank = Some c →
  ArticleDB.column_number d !! c = Some name →
  v !! c = Some x →
  print_feature data (VArr1 v) (IArr1 t) rank w
  = (Ok (), {| heap := heap w;
               stdout := stdout w ++ [FeatureLine (rank + 1) name (VNum x)];
               calls := calls w; rng := rng w |}).
Proof.
  intros Hd Hc Hname Hx.
  unfold print_feature, mbind, Py_bind, lift, getattr, indices_getitem. rewrite Hc, Hd.
  simpl. rewrite Hname. unfold list_getitem, fmap, outcome_fmap. rewrite Hx.
  reflexivity.
Qed.

Lemma print_features_run data d v t ranks w :
  heap w !! data = Some d →
  Forall (λ rank, ∃ c, t !! rank = Some c ∧ c < length v ∧
                       is_Some (ArticleDB.column_number d !! c)) ranks →
  ∃ lines,
    for_each ranks (print_feature data (VArr1 v) (IArr1 t)) w
    = (Ok (), {| heap := heap w; stdout := stdout w ++ lines;
                 calls := calls w; rng := rng w |}) ∧
    Forall2 (λ rank l, ∃ c name x,
               t !! rank = Some c ∧ ArticleDB.column_number d !! c = Some name ∧
               v !! c = Some x ∧ l = FeatureLine (rank + 1) name (VNum x)) ranks lines.
Proof.
  intros Hd Hall. revert w Hd.
  induction Hall as [|rank ranks (c & Hc & Hlt & [name Hname]) Hall IH]; intros w Hd.
  - exists []. simpl. rewrite app_nil_r. split; [|constructor]. by destruct w.
  - apply lookup_lt_is_Some in Hlt as [x Hx].
    pose proof (print_feature_run data d v t rank c name x w Hd Hc Hname Hx) as Hstep.
    destruct (IH {| heap := heap w;
                    stdout := stdout w ++ [FeatureLine (rank + 1) name (VNum x)];
                    calls := calls w; rng := rng w |} Hd) as (lines & Hrest & Hlines).
    exists (FeatureLine (rank + 1) name (VNum x) :: lines). split.
    + simpl. rewrite (bind_ok _ _ _ _ _ Hstep), Hrest. simpl.
      by rewrite <- app_assoc.
    + constructor; [|done]. exists c, name, x. done.
Qed.

(** The ranking of a vector of at least ten scores: the ten columns, and the
    eleven lines the importance step prints for them. *)
Lemma print_top_10_vector data d v w :
  10 ≤ length v →
  heap w !! data = Some d →
  (∀ c, c < length v → is_Some (ArticleDB.column_number d !! c)) →
  ∃ t lines,
    top_10_vars lib (VArr1 v) = Ok (IArr1 t) ∧ ten_greatest v t ∧
    print_top_10 lib data (VArr1 v) w
    = (Ok (), {| heap := heap w; stdout := stdout w ++ MostImportantLine :: lines;
                 calls := calls w; rng := rng w |}) ∧
    length lines = 10 ∧
    ∀ rank c, t !! rank = Some c →
      ∃ name x, ArticleDB.column_number d !! c = Some name ∧ v !! c = Some x ∧
                lines !! rank = Some (FeatureLine (rank + 1) name (VNum x)).
Proof.
  intros Hv Hd Hnames.
  pose proof (sel_ten_greatest _ sel_ok v Hv) as Hten.
  set (t := last_10 (introselect lib v (length v - 10))) in *.
  destruct Hten as (Hlen & Hnodup & Hrange & Hgreat).
  destruct (print_features_run data d v t (range 10)
              {| heap := heap w; stdout := stdout w ++ [MostImportantLine];
                 calls := calls w; rng := rng w |} Hd) as (lines & Hloop & Hlines).
  { apply Forall_forall. intros rank Hrank. apply elem_of_seq in Hrank.
    destruct (lookup_lt_is_Some_2 t rank) as [c Hc]; [lia|]. exists c.
    assert (c < length v) by (apply Hrange; eapply list_elem_of_lookup_2; done). auto. }
  exists t, lines. split; [by apply top_10_vars_vector|].
  split; [done|]. split; [|split].
  - unfold print_top_10. rewrite top_10_vars_vector by done.
    unfold mbind at 1, Py_bind at 1, lift. unfold mbind at 1, Py_bind at 1, print.
    fold t. rewrite Hloop. simpl. by rewrite <- app_assoc.
  - apply Forall2_length in Hlines. rewrite <- Hlines. apply length_seq.
  - intros rank c Hc.
    assert (range 10 !! rank = Some rank) as Hrank.
    { apply lookup_lt_Some in Hc. unfold range. rewrite lookup_seq. split; [done|lia]. }
    destruct (Forall2_lookup_l _ _ _ _ _ Hlines Hrank) as (l & Hl & c' & name & x & Hc' & ? & ? & ->).
    assert (c' = c) as -> by congruence. eauto.
Qed.
End ranking.

(** C1 (amended). For every importance vector with at least ten entries the
    selection returns exactly ten distinct column indices, each within the
    vector, and no column left out scores more than a column selected; the
    importance step prints the heading and then one line for each of the
    ten, in the order of the selection, rank [r + 1] on the line of the
    column at position [r], with the column's name and its score. *)
Theorem top_10_selection (lib : Library) (v : list Q) (data : loc)
    (d : ArticleDB.t) (w : world) :
  introselect_contract (introselect lib) →
  10 ≤ length v →
  heap w !! data = Some d →
  (∀ c, c < length v → is_Some (ArticleDB.column_number d !! c)) →
  ∃ t lines,
    top_10_vars lib (VArr1 v) = Ok (IArr1 t) ∧
    length t = 10 ∧ NoDup t ∧ (∀ c, c ∈ t → c < length v) ∧
    (∀ c j x z, c ∈ t → j ∉ t → v !! c = Some x → v !! j = Some z → (z <= x)%Q) ∧
    print_top_10 lib data (VArr1 v) w
    = (Ok (), {| heap := heap w; stdout := stdout w ++ MostImportantLine :: lines;
                 calls := calls w; rng := rng w |}) ∧
    length lines = 10 ∧
    ∀ rank c, t !! rank = Some c →
      ∃ name x, ArticleDB.column_number d !! c = Some name ∧ v !! c = Some x ∧
                lines !! rank = Some (FeatureLine (rank + 1) name (VNum x)).
Proof.
  intros Hsel Hv Hd Hnames.
  destruct (print_top_10_vector lib Hsel data d v w Hv Hd Hnames)
    as (t & lines & Htop & (Hlen & Hnodup & Hrange & Hgreat) & Hrun & Hlines & Hrank).
  exists t, lines. repeat split; done.
Qed.

Fact top_10_selection_witness :
  ∃ t lines,
    top_10_vars (toy flat_shape) (VArr1 toy_row) = Ok (IArr1 t) ∧
    length t = 10 ∧ NoDup t ∧ (∀ c, c ∈ t → c < length toy_row) ∧
    (∀ c j x z, c ∈ t → j ∉ t → toy_row !! c = Some x → toy_row !! j = Some z → (z <= x)%Q) ∧
    print_top_10 (toy flat_shape) 0 (VArr1 toy_row) toy_world
    = (Ok (), {| heap := heap toy_world;
                 stdout := stdout toy_world ++ MostImportantLine :: lines;
                 calls := calls toy_world; rng := rng toy_world |}) ∧
    length lines = 10 ∧
    ∀ rank c, t !! rank = Some c →
      ∃ name x, ArticleDB.column_number toy_db !! c = Some name ∧ toy_row !! c = Some x ∧
                lines !! rank = Some (FeatureLine (rank + 1) name (VNum x)).
Proof.
  apply (top_10_selection (toy flat_shape) toy_row 0 toy_db toy_world).
  - exact argsort_contract.
  - simpl. lia.
  - reflexivity.
  - intros c Hc. simpl in Hc.
    do 11 (destruct c as [|c]; [vm_compute; eauto|]). lia.
Defined.

(** Ten scores, all different, in ascending order of their columns. *)
Definition ascending_scores : list Q := [0; 1; 2; 3; 4; 5; 6; 7; 8; 9]%Q.

Lemma ascending_scores_lookup c x :
  ascending_scores !! c = Some x → x = inject_Z (Z.of_nat c).
Proof.
  do 10 (destruct c as [|c]; [intros [= <-]; reflexivity|]). done.
Qed.

(** C1, as first stated, fails: on ten different scores no selection that
    meets numpy's contract leaves the ten columns in descending order of
    score, whatever the rule for ties.  The column at the front is where a
    sort would put it, so it holds the least of the ten scores, whereas the
    first of a descending ranking holds the greatest. *)
Lemma top_10_not_ranked_descending :
  ¬ ∃ lib t,
      introselect_contract (introselect lib) ∧
      top_10_vars lib (VArr1 ascending_scores) = Ok (IArr1 t) ∧
      descending_scores ascending_scores t.
Proof.
  intros (lib & t & Hsel & Htop & Hdesc).
  rewrite top_10_vars_vector in Htop by (simpl; lia). injection Htop as <-.
  change (length ascending_scores - 10) with 0 in Hdesc.
  set (r := introselect lib ascending_scores 0) in *.
  assert (0 < length ascending_scores) as Hk by (simpl; lia).
  assert (length r = 10) as Hr by (unfold r; rewrite sel_length; done).
  rewrite last_10_short in Hdesc by lia.
  destruct (lookup_lt_is_Some_2 r 0) as [p Hp]; [lia|].
  destruct (lookup_lt_is_Some_2 r 1) as [a Ha]; [lia|].
  assert (p < length ascending_scores) as Hplt.
  { apply (sel_elem_of _ Hsel ascending_scores 0 p Hk). eapply list_elem_of_lookup_2; done. }
  assert (a < length ascending_scores) as Halt.
  { apply (sel_elem_of _ Hsel ascending_scores 0 a Hk). eapply list_elem_of_lookup_2; done. }
  apply lookup_lt_is_Some in Hplt as [z Hz]. apply lookup_lt_is_Some in Halt as [x Hx].
  destruct (Hsel ascending_scores 0 Hk) as [_ Hpart]. fold r in Hpart.
  destruct (Hpart 1 a p x z Hp Ha Hz Hx) as [_ Hhigh]. specialize (Hhigh ltac:(lia)).
  pose proof (Hdesc 0 1 p a z x ltac:(lia) Hp Ha Hz Hx) as Hle.
  rewrite (ascending_scores_lookup _ _ Hz), (ascending_scores_lookup _ _ Hx) in Hle, Hhigh.
  rewrite <- Zle_Qle in Hle, Hhigh.
  assert (p = a) as -> by lia.
  pose proof (sel_NoDup _ Hsel ascending_scores 0 Hk) as Hnodup. fold r in Hnodup.
  pose proof (NoDup_lookup _ _ _ _ Hnodup Hp Ha). lia.
Qed.

Lemma signed_coefficients_positive c x :
  signed_coefficients !! c = Some x → c ≠ 0 → (0 < x)%Q ∧ (x < 1000)%Q.
Proof.
  destruct c as [|c]; [done|].
  do 10 (destruct c as [|c]; [intros [= <-] _; split; reflexivity|]). done.
Qed.

(** On [signed_coefficients] every selection that meets the contract leaves
    column 0 out and takes the other ten. *)
Lemma signed_coefficients_selection sel :
  introselect_contract sel →
  (0 ∉ last_10 (sel signed_coefficients 1)) ∧
  (∀ c, 1 ≤ c ≤ 10 → c ∈ last_10 (sel signed_coefficients 1)).
Proof.
  intros Hsel. set (v := signed_coefficients). set (r := sel v 1).
  assert (1 < length v) as Hk by (simpl; lia).
  assert (length r = 11) as Hr by (unfold r; rewrite sel_length; done).
  assert (last_10 r = drop 1 r) as -> by (unfold last_10; rewrite Hr; done).
  destruct (lookup_lt_is_Some_2 r 0) as [r0 Hr0]; [lia|].
  assert (r = r0 :: drop 1 r) as Hsplit.
  { destruct r as [|r0' t]; [done|]. simpl in *. rewrite drop_0. congruence. }
  assert (r0 = 0) as ->.
  { destruct (decide (r0 = 0)) as [|Hne]; [done|exfalso].
    assert (0 ∈ r) as Hin by (apply (sel_elem_of _ Hsel v 1 0 Hk); lia).
    rewrite Hsplit in Hin. apply elem_of_cons in Hin as [|Hin]; [lia|].
    apply list_elem_of_lookup_1 in Hin as [j Hj]. rewrite lookup_drop in Hj.
    assert (r0 < length v) as Hlt.
    { apply (sel_elem_of _ Hsel v 1 r0 Hk). eapply list_elem_of_lookup_2; done. }
    apply lookup_lt_is_Some in Hlt as [x Hx].
    pose proof (sel_split _ Hsel v 1 0 (1 + j) r0 0 x (-1000)%Q
                  Hk ltac:(lia) ltac:(lia) Hr0 Hj Hx eq_refl) as Hle.
    destruct (signed_coefficients_positive r0 x Hx Hne) as [Hpos _].
    apply (Qlt_irrefl 0). eapply Qlt_le_trans; [exact Hpos|].
    eapply Qle_trans; [exact Hle|]. done. }
  pose proof (sel_NoDup _ Hsel v 1 Hk) as Hnodup. fold r in Hnodup.
  rewrite Hsplit in Hnodup. apply NoDup_cons in Hnodup as [Hnotin _].
  split; [done|]. intros c Hc.
  assert (c ∈ r) as Hin by (apply (sel_elem_of _ Hsel v 1 c Hk); simpl; lia).
  rewrite Hsplit in Hin. apply elem_of_cons in Hin as [|Hin]; [lia|done].
Qed.

(** C3. The ranking compares the coefficients as they are: the vector that
    reaches the selection is the coefficient attribute itself, and a column
    is left out only if its signed coefficient is at most that of every
    column taken; no absolute value, no rescaling.  So on
    [signed_coefficients] the coefficient -1000, the greatest in magnitude,
    is left out and the ten small positive ones are all taken. *)
Theorem ranking_by_signed_coefficient (lib : Library) :
  introselect_contract (introselect lib) →
  (∀ est v, coef_ est = Some (VArr1 v) → 10 ≤ length v →
     variable_importance est = VArr1 v ∧
     ∃ t, top_10_vars lib (variable_importance est) = Ok (IArr1 t) ∧
          ∀ c j x z, c ∈ t → j ∉ t → v !! c = Some x → v !! j = Some z → (z <= x)%Q) ∧
  (∃ t, top_10_vars lib (VArr1 signed_coefficients) = Ok (IArr1 t) ∧
        signed_coefficients !! 0 = Some (-1000)%Q ∧ (0 ∉ t) ∧
        (∀ c, 1 ≤ c ≤ 10 →
           (c ∈ t) ∧ ∃ x, signed_coefficients !! c = Some x ∧ (0 < x)%Q ∧ (x < 1000)%Q)).
Proof.
  intros Hsel. split.
  - intros est v Hcoef Hv.
    assert (variable_importance est = VArr1 v) as ->.
    { unfold variable_importance. by rewrite Hcoef. }
    split; [done|]. eexists. split; [by apply top_10_vars_vector|].
    by destruct (sel_ten_greatest _ Hsel v Hv) as (_ & _ & _ & Hgreat).
  - eexists. split; [apply top_10_vars_vector; simpl; lia|].
    change (length signed_coefficients - 10) with 1.
    destruct (signed_coefficients_selection _ Hsel) as [Hout Hin].
    split; [done|]. split; [done|]. intros c Hc. split; [by apply Hin|].
    destruct (lookup_lt_is_Some_2 signed_coefficients c) as [x Hx]; [simpl; lia|].
    exists x. split; [done|]. apply (signed_coefficients_positive c); [done|lia].
Qed.

Fact ranking_by_signed_coefficient_witness :
  ∃ t, top_10_vars (toy flat_shape) (VArr1 signed_coefficients) = Ok (IArr1 t) ∧
       signed_coefficients !! 0 = Some (-1000)%Q ∧ (0 ∉ t) ∧
       (∀ c, 1 ≤ c ≤ 10 →
          (c ∈ t) ∧ ∃ x, signed_coefficients !! c = Some x ∧ (0 < x)%Q ∧ (x < 1000)%Q).
Proof.
  exact (proj2 (ranking_by_signed_coefficient (toy flat_shape) argsort_contract)).
Defined.

(** ** The driver and the trainer as a whole *)

Lemma library_calls_silent evs :
  Forall is_library_call evs → trainer_calls evs = [] ∧ dataset_calls evs = [].
Proof.
  induction 1 as [|ev evs Hev _ [IH1 IH2]]; [done|].
  unfold trainer_calls, dataset_calls in *. destruct ev; simpl in *; done.
Qed.

Lemma seq_returns_None {A} (m : Py A) w v w' :
  (m ;; mret VNone) w = (Ok v, w') → v = VNone.
Proof.
  intros Hrun. apply bind_inv in Hrun as [(a & w1 & _ & Hret)|(e & _ & ?)]; [|done].
  by injection Hret as <- _.
Qed.

Section driver.
Variable lib : Library.

Lemma train_model_returns_None data learner grid w v w' :
  train_model lib data learner grid w = (Ok v, w') → v = VNone.
Proof.
  unfold train_model. intros Hrun.
  apply bind_inv in Hrun as [(model & w1 & _ & Hrest)|(e & _ & ?)]; [|done].
  by apply seq_returns_None in Hrest.
Qed.

Lemma ArticleDB_new_run domain_endings author w :
  ArticleDB_new lib domain_endings author w
  = match ArticleDB_init lib domain_endings author with
    | Ok d => (Ok (length (heap w)),
               {| heap := heap w ++ [d]; stdout := stdout w;
                  calls := calls w ++ [EvArticleDB domain_endings author]; rng := rng w |})
    | Raise e => (Raise e,
               {| heap := heap w; stdout := stdout w;
                  calls := calls w ++ [EvArticleDB domain_endings author]; rng := rng w |})
    end.
Proof.
  unfold ArticleDB_new, mbind, Py_bind, log, lift, new.
  destruct (ArticleDB_init lib domain_endings author); reflexivity.
Qed.

(** The three calls the driver makes on the object at [articles]. *)
Lemma article_trainers_run w :
  article_trainers lib w
  = match ArticleDB_new lib false false w with
    | (Ok articles, w1) =>
        (train_model lib articles DecisionTreeClassifier [] ;;
         train_model lib articles MultinomialNB
           [("alpha", [PyFloat 0.1; PyFloat 1.0; PyFloat 10.0; PyFloat 100.0])] ;;
         train_model lib articles LogisticRegression
           [("C", [PyFloat 0.01; PyFloat 0.1; PyInt 1; PyInt 10; PyInt 100])] ;;
         mret VNone) w1
    | (Raise e, w1) => (Raise e, w1)
    end.
Proof. reflexivity. Qed.

Lemma article_trainers_returns_None w v w' :
  article_trainers lib w = (Ok v, w') → v = VNone.
Proof.
  rewrite article_trainers_run.
  destruct (ArticleDB_new lib false false w) as [[articles|e] w1]; [|done].
  intros Hrun.
  apply bind_inv in Hrun as [(? & w2 & _ & Hrun)|(e & _ & ?)]; [|done].
  apply bind_inv in Hrun as [(? & w3 & _ & Hrun)|(e & _ & ?)]; [|done].
  by apply seq_returns_None in Hrun.
Qed.

Lemma three_trainers_same_heap articles g1 g2 g3 :
  steps same_heap
    (train_model lib articles DecisionTreeClassifier g1 ;;
     train_model lib articles MultinomialNB g2 ;;
     train_model lib articles LogisticRegression g3 ;;
     mret VNone).
Proof. py_steps; apply train_model_same_heap. Qed.

Lemma article_trainers_heap w :
  heap (article_trainers lib w).2
  = match ArticleDB_init lib false false with
    | Ok d => heap w ++ [d]
    | Raise _ => heap w
    end.
Proof.
  rewrite article_trainers_run, ArticleDB_new_run.
  destruct (ArticleDB_init lib false false) as [d|e]; [|done].
  rewrite (three_trainers_same_heap (length (heap w)) _ _ _ _). done.
Qed.
End driver.

(** C10. Every run of the trainer, returning or raising, leaves every
    object as it was, the dataset among them: the trainer reads [X], [y]
    and [column_number] and assigns to nothing.  So the dataset the driver
    constructs is, after its three runs, the dataset as constructed.
    Trainer and driver return [None]; what they produce is on standard
    output. *)
Theorem trainer_leaves_dataset_unchanged (lib : Library) (data : loc)
    (learner : learner_class) (grid : param_grid) (w : world) :
  heap (train_model lib data learner grid w).2 = heap w ∧
  (∀ v w', train_model lib data learner grid w = (Ok v, w') → v = VNone) ∧
  (∀ v w', article_trainers lib w = (Ok v, w') → v = VNone) ∧
  heap (article_trainers lib w).2
  = match ArticleDB_init lib false false with
    | Ok d => heap w ++ [d]
    | Raise _ => heap w
    end.
Proof.
  split; [apply train_model_same_heap|].
  split; [apply train_model_returns_None|].
  split; [apply article_trainers_returns_None|].
  apply article_trainers_heap.
Qed.

Fact trainer_leaves_dataset_unchanged_witness :
  heap (train_model (toy sklearn_shape) 0 LogisticRegression [] toy_world).2 = [toy_db] ∧
  heap (article_trainers (toy flat_shape) empty_world).2 = [toy_db] ∧
  (article_trainers (toy flat_shape) empty_world).1 = Ok VNone.
Proof.
  destruct (trainer_leaves_dataset_unchanged (toy sklearn_shape) 0 LogisticRegression []
              toy_world) as (Hheap & _).
  destruct (trainer_leaves_dataset_unchanged (toy flat_shape) 0 LogisticRegression []
              empty_world) as (_ & _ & Hnone & Hdriver).
  split; [exact Hheap|]. split; [exact Hdriver|].
  destruct (article_trainers (toy flat_shape) empty_world) as [o w'] eqn:Hrun.
  assert (∃ v, o = Ok v) as [v ->].
  { vm_compute in Hrun. injection Hrun as <- _. eauto. }
  simpl. f_equal. exact (Hnone v w' eq_refl).
Defined.

Lemma trainer_calls_app evs1 evs2 :
  trainer_calls (evs1 ++ evs2) = trainer_calls evs1 ++ trainer_calls evs2.
Proof. apply omap_app. Qed.


(** The calls of one run of the trainer: its entry, then library calls. *)
Lemma trainer_run_calls data learner grid evs :
  Forall is_library_call evs →
  trainer_calls (EvTrainModel data learner grid :: evs) = [(data, learner, grid)] ∧
  dataset_calls (EvTrainModel data learner grid :: evs) = [].
Proof.
  intros [Ht Hd]%library_calls_silent.
  change (trainer_calls (EvTrainModel data learner grid :: evs))
    with ((data, learner, grid) :: trainer_calls evs).
  change (dataset_calls (EvTrainModel data learner grid :: evs)) with (dataset_calls evs).
  by rewrite Ht, Hd.
Qed.




(** ** The empty grid, and the split *)

Lemma print_top_10_no_calls lib data var_imp w :
  calls (print_top_10 lib data var_imp w).2 = calls w.
Proof.
  destruct (print_top_10_calls lib (λ _, False) data var_imp w) as (evs & -> & Hall).
  destruct Hall; [by rewrite app_nil_r|done].
Qed.

Lemma train_model_calls_eq lib data learner grid w :
  calls (train_model lib data learner grid w).2
  = calls (train_and_score lib data learner grid w).2.
Proof.
  unfold train_model, mbind, Py_bind.
  destruct (train_and_score lib data learner grid w) as [[model|e] w1]; [|done].
  pose proof (print_top_10_no_calls lib data
                (variable_importance (best_estimator_ model)) w1) as Hcalls.
  destruct (print_top_10 lib data _ w1) as [[[]|e] w2]; done.
Qed.

(** Run a computation on an unknown library: unfold the program down to
    the library's routines, and follow each outcome a routine can have. *)
Ltac py_run :=
  repeat first
    [ progress (unfold train_and_score, GridSearchCV_fit, evaluate_candidate,
                  model_score, call_train_test_split, instantiate, getattr, random,
                  log, print, lift, raise, mbind, Py_bind, mret, Py_ret in *; cbn in *)
    | case_match; simplify_eq ].

Lemma getattr_ok {A} data (attr : ArticleDB.t → A) w d :
  heap w !! data = Some d → getattr data attr w = (Ok (attr d), w).
Proof. intros Hd. unfold getattr. rewrite Hd. reflexivity. Qed.

Lemma train_and_score_at_split lib data learner grid w d :
  heap w !! data = Some d →
  train_and_score lib data learner grid w
  = match train_test_split lib (ArticleDB.X d) (ArticleDB.y d) 0.2%Q None (rng w) with
    | (Ok s, g) =>
        after_split lib learner grid s (with_rng (at_split w data learner grid d) g)
    | (Raise e, g) => (Raise e, with_rng (at_split w data learner grid d) g)
    end.
Proof.
  intros Hd. unfold train_and_score.
  etrans; [apply bind_ok; reflexivity|].
  etrans; [apply bind_ok; reflexivity|].
  etrans; [apply bind_ok; apply getattr_ok; exact Hd|].
  etrans; [apply bind_ok; apply getattr_ok; exact Hd|].
  assert (∀ o g, (o, {| heap := heap w; stdout := stdout w;
                        calls := ((calls w ++ [EvTrainModel data learner grid])
                                  ++ [EvInstantiate learner []])
                                  ++ [EvSplit (ArticleDB.X d) (ArticleDB.y d) 0.2%Q None];
                        rng := g |})
                 = (o : outcome split, with_rng (at_split w data learner grid d) g)) as Hw.
  { intros o g. unfold with_rng, at_split. cbn [heap stdout calls rng].
    by rewrite <- !app_assoc. }
  destruct (train_test_split lib (ArticleDB.X d) (ArticleDB.y d) 0.2%Q None (rng w))
    as [[s|e] g] eqn:Hsplit.
  - etrans; [apply bind_ok|reflexivity].
    unfold call_train_test_split, mbind, Py_bind, log, random. cbn [rng heap stdout calls].
    rewrite Hsplit. apply Hw.
  - apply bind_raise.
    unfold call_train_test_split, mbind, Py_bind, log, random. cbn [rng heap stdout calls].
    rewrite Hsplit. apply Hw.
Qed.

Lemma after_split_calls lib learner grid s :
  steps (more_calls (on_partitions s)) (after_split lib learner grid s).
Proof.
  unfold after_split, GridSearchCV_fit, evaluate_candidate, model_score. py_steps.
Qed.

(** Nothing is printed by the library's routines. *)
Global Instance same_stdout_preorder : PreOrder same_stdout.
Proof.
  split; [intros w; reflexivity|]. intros w1 w2 w3. unfold same_stdout. congruence.
Qed.

Lemma same_stdout_log ev : steps same_stdout (log ev).
Proof. intros w. reflexivity. Qed.

Lemma same_stdout_random {A} (f : Z → outcome A * Z) : steps same_stdout (random f).
Proof. intros w. unfold random. destruct (f (rng w)). reflexivity. Qed.

#[export] Hint Resolve same_stdout_log same_stdout_random : py.

Lemma lift_inv {A} (o : outcome A) w a w' : lift o w = (Ok a, w') → o = Ok a ∧ w' = w.
Proof. unfold lift. by intros [= -> ->]. Qed.

Lemma getattr_inv {A} data (attr : ArticleDB.t → A) w a w' :
  getattr data attr w = (Ok a, w') → ∃ d, heap w !! data = Some d ∧ a = attr d ∧ w' = w.
Proof.
  unfold getattr. destruct (heap w !! data) as [d|]; [|done]. intros [= <- <-]. eauto.
Qed.

Lemma GridSearchCV_fit_silent lib learner grid X y :
  steps same_stdout (GridSearchCV_fit lib learner grid X y).
Proof. unfold GridSearchCV_fit, evaluate_candidate. py_steps. Qed.

(** What lines 20-28 print: nothing when they raise, the three lines about
    accuracy when they return. *)
Lemma train_and_score_output lib data learner grid w o w' :
  train_and_score lib data learner grid w = (o, w') →
  match o with
  | Ok model =>
      ∃ d s g accuracy,
        heap w !! data = Some d ∧
        train_test_split lib (ArticleDB.X d) (ArticleDB.y d) 0.2%Q None (rng w) = (Ok s, g) ∧
        score lib (best_estimator_ model) (X_test s) (y_test s) = Ok accuracy ∧
        let r := repr lib {| est_class := learner; est_args := [] |} in
        stdout w' = stdout w ++
          [HeaderLine (str_slice_to r (str_find "("%char r)) (best_params_ model);
           ValAccuracyLine (best_score_ model); TestAccuracyLine accuracy]
  | Raise _ => stdout w' = stdout w
  end.
Proof.
  destruct (heap w !! data) as [d|] eqn:Hd.
  - rewrite (train_and_score_at_split lib _ _ _ _ _ Hd).
    destruct (train_test_split lib (ArticleDB.X d) (ArticleDB.y d) 0.2%Q None (rng w))
      as [[s|e] g] eqn:Hsplit; [|by intros [= <- <-]].
    unfold after_split. intros Hrun.
    apply bind_inv in Hrun as [(model & w2 & Hsearch & Hrun)|(e & Hsearch & ->)].
    2:{ pose proof (GridSearchCV_fit_silent lib {| est_class := learner; est_args := [] |}
                      grid (X_train s) (y_train s)
                      (with_rng (at_split w data learner grid d) g)) as Hquiet.
        rewrite Hsearch in Hquiet. exact Hquiet. }
    pose proof (GridSearchCV_fit_silent lib {| est_class := learner; est_args := [] |}
                  grid (X_train s) (y_train s)
                  (with_rng (at_split w data learner grid d) g)) as Hquiet.
    rewrite Hsearch in Hquiet. unfold same_stdout in Hquiet. cbn [snd stdout with_rng at_split] in Hquiet.
    unfold model_score, mbind, Py_bind, log, lift, print, mret, Py_ret in Hrun.
    cbn [heap stdout calls rng] in Hrun.
    destruct (score lib (best_estimator_ model) (X_test s) (y_test s)) as [accuracy|e] eqn:Hscore.
    + injection Hrun as <- <-. exists d, s, g, accuracy.
      cbn [stdout]. rewrite Hquiet, <- !app_assoc. done.
    + injection Hrun as <- <-. cbn [stdout]. exact Hquiet.
  - unfold train_and_score. intros Hrun. revert Hrun.
    unfold instantiate, getattr, mbind, Py_bind, log, mret, Py_ret. cbn [heap stdout calls rng].
    rewrite Hd. by intros [= <- <-].
Qed.

Lemma random_inv {A} (f : Z → outcome A * Z) w a w' :
  random f w = (Ok a, w') →
  ∃ g, f (rng w) = (Ok a, g) ∧
       w' = {| heap := heap w; stdout := stdout w; calls := calls w; rng := g |}.
Proof.
  unfold random. destruct (f (rng w)) as [o g]. intros [= -> <-]. eauto.
Qed.

Lemma best_candidate_elem scored best s :
  best_candidate scored = Some (best, s) → (best, s) ∈ scored.
Proof.
  induction scored as [|[a x] scored IH]; simpl; [done|].
  destruct (best_candidate scored) as [[a' x']|].
  - destruct (Qle_bool x' x); intros [= <- <-]; [left|right; by apply IH].
  - intros [= <- <-]. left.
Qed.

Lemma mapM_Py_elem {A B} (f : A → Py B) (l : list A) w k w' b :
  mapM f l w = (Ok k, w') → b ∈ k → ∃ a w0 w1, a ∈ l ∧ f a w0 = (Ok b, w1).
Proof.
  revert w k w'. induction l as [|a l IH]; intros w k w'; simpl.
  - intros [= <- _] Hb. by apply elem_of_nil in Hb.
  - intros Hrun Hb.
    apply bind_inv in Hrun as [(b0 & w1 & Ha & Hrun)|(e & _ & ?)]; [|done].
    apply bind_inv in Hrun as [(bs & w2 & Hrest & Hret)|(e & _ & ?)]; [|done].
    injection Hret as <- _. apply elem_of_cons in Hb as [->|Hb].
    + exists a, w, w1. split; [left|done].
    + destruct (IH _ _ _ Hrest Hb) as (a' & w0 & w0' & Hin & Hf).
      exists a', w0, w0'. split; [by right|done].
Qed.

(** What a search that returns has done: the best parameters are one of
    the grid's combinations, the best score is the cross-validated score of
    the estimator under them on the data given, and the best estimator is
    the estimator fitted under them on the data given. *)
Lemma GridSearchCV_fit_returns lib est grid X y w model w' :
  GridSearchCV_fit lib est grid X y w = (Ok model, w') →
  best_params_ model ∈ ParameterGrid grid ∧
  (∃ g0 g0', cross_val_score lib est (best_params_ model) X y g0
             = (Ok (best_score_ model), g0')) ∧
  ∃ g1, fit lib est (best_params_ model) X y g1 = (Ok (best_estimator_ model), rng w').
Proof.
  unfold GridSearchCV_fit. intros Hrun.
  apply bind_inv in Hrun as [(scored & w1 & Hmap & Hrun)|(e & _ & ?)]; [|done].
  destruct (best_candidate scored) as [[best s]|] eqn:Hbest; [|done].
  apply best_candidate_elem in Hbest.
  destruct (mapM_Py_elem _ _ _ _ _ _ Hmap Hbest) as (cand & w0 & w0' & Hin & Heval).
  unfold evaluate_candidate in Heval.
  apply bind_inv in Heval as [([] & w2 & _ & Heval)|(e & _ & ?)]; [|done].
  apply bind_inv in Heval as [(s' & w3 & (g0' & Hcv & _)%random_inv & Hret)|(e & _ & ?)];
    [|done].
  injection Hret as -> -> _.
  apply bind_inv in Hrun as [([] & w4 & _ & Hrun)|(e & _ & ?)]; [|done].
  apply bind_inv in Hrun as [(f & w5 & (g2 & Hfit & ->)%random_inv & Hret)|(e & _ & ?)];
    [|done].
  injection Hret as <- <-. cbn [best_params_ best_score_ best_estimator_ rng].
  split; [done|]. split; eauto.
Qed.

(** A run of lines 20-28 that returns: the split it made, the
    cross-validation and the fit behind the model it returns, the score
    behind the accuracy it printed. *)
Lemma train_and_score_returns lib data learner grid w model w1 d :
  heap w !! data = Some d →
  train_and_score lib data learner grid w = (Ok model, w1) →
  let est := {| est_class := learner; est_args := [] |} in
  ∃ s g,
    train_test_split lib (ArticleDB.X d) (ArticleDB.y d) 0.2%Q None (rng w) = (Ok s, g) ∧
    best_params_ model ∈ ParameterGrid grid ∧
    (∃ g0 g0', cross_val_score lib est (best_params_ model) (X_train s) (y_train s) g0
               = (Ok (best_score_ model), g0')) ∧
    (∃ g1, fit lib est (best_params_ model) (X_train s) (y_train s) g1
           = (Ok (best_estimator_ model), rng w1)) ∧
    ∃ accuracy,
      score lib (best_estimator_ model) (X_test s) (y_test s) = Ok accuracy ∧
      stdout w1 = stdout w ++
        [HeaderLine (str_slice_to (repr lib est) (str_find "("%char (repr lib est)))
                    (best_params_ model);
         ValAccuracyLine (best_score_ model); TestAccuracyLine accuracy].
Proof.
  intros Hd Hrun est.
  rewrite (train_and_score_at_split lib _ _ _ _ _ Hd) in Hrun.
  destruct (train_test_split lib (ArticleDB.X d) (ArticleDB.y d) 0.2%Q None (rng w))
    as [[s|e] g] eqn:Hsplit; [|discriminate Hrun].
  exists s, g. split; [reflexivity|].
  unfold after_split in Hrun.
  apply bind_inv in Hrun as [(model' & w2 & Hsearch & Hrun)|(e & _ & ?)]; [|done].
  assert (stdout w2 = stdout w) as Hout.
  { change w2 with (Ok model', w2).2. rewrite <- Hsearch.
    exact (GridSearchCV_fit_silent lib _ _ _ _ _). }
  apply GridSearchCV_fit_returns in Hsearch as (Hin & Hcv & g1 & Hfit).
  unfold model_score, mbind, Py_bind, log, lift, print, mret, Py_ret in Hrun.
  cbn [heap stdout calls rng] in Hrun.
  destruct (score lib (best_estimator_ model') (X_test s) (y_test s)) as [acc|]
    eqn:Hacc; [|discriminate Hrun].
  injection Hrun as <- <-. cbn [rng stdout].
  split; [exact Hin|]. split; [exact Hcv|]. split; [eauto|].
  exists acc. split; [exact Hacc|]. rewrite Hout. by rewrite <- !app_assoc.
Qed.

(** The search on the empty grid, call by call: one cross-validation of the
    estimator with nothing set, then one fit of it with nothing set. *)
Lemma GridSearchCV_fit_empty lib est X y w :
  GridSearchCV_fit lib est [] X y w
  = match cross_val_score lib est [] X y (rng w) with
    | (Ok cv, g) =>
        match fit lib est [] X y g with
        | (Ok f, g') =>
            (Ok {| best_params_ := []; best_score_ := cv; best_estimator_ := f |},
             {| heap := heap w; stdout := stdout w;
                calls := calls w ++ [EvCrossVal est [] X y; EvFit est [] X y]; rng := g' |})
        | (Raise e, g') =>
            (Raise e,
             {| heap := heap w; stdout := stdout w;
                calls := calls w ++ [EvCrossVal est [] X y; EvFit est [] X y]; rng := g' |})
        end
    | (Raise e, g) =>
        (Raise e,
         {| heap := heap w; stdout := stdout w;
            calls := calls w ++ [EvCrossVal est [] X y]; rng := g |})
    end.
Proof.
  py_run; rewrite <- ?app_assoc; reflexivity.
Qed.

(** A run of lines 20-28 with the empty grid that returns. *)
Lemma train_and_score_empty_grid lib data learner w model w1 :
  train_and_score lib data learner [] w = (Ok model, w1) →
  let est := {| est_class := learner; est_args := [] |} in
  ∃ d s g cv g1 f,
    heap w !! data = Some d ∧
    train_test_split lib (ArticleDB.X d) (ArticleDB.y d) 0.2%Q None (rng w) = (Ok s, g) ∧
    cross_val_score lib est [] (X_train s) (y_train s) g = (Ok cv, g1) ∧
    fit lib est [] (X_train s) (y_train s) g1 = (Ok f, rng w1) ∧
    model = {| best_params_ := []; best_score_ := cv; best_estimator_ := f |}.
Proof.
  intros Hrun est.
  destruct (heap w !! data) as [d|] eqn:Hd.
  2:{ unfold train_and_score in Hrun.
      apply bind_inv in Hrun as [([] & w2 & Hlog & Hrun)|(e & _ & ?)]; [|done].
      unfold log in Hlog. injection Hlog as <-.
      apply bind_inv in Hrun as [(l & w3 & Hl & Hrun)|(e & _ & ?)]; [|done].
      unfold instantiate, mbind, Py_bind, log, mret, Py_ret in Hl.
      injection Hl as <- <-.
      apply bind_inv in Hrun as [(X & w4 & (d & Hd' & _)%getattr_inv & _)|(e & _ & ?)];
        [|done].
      cbn [heap] in Hd'. congruence. }
  rewrite (train_and_score_at_split lib _ _ _ _ _ Hd) in Hrun.
  destruct (train_test_split lib (ArticleDB.X d) (ArticleDB.y d) 0.2%Q None (rng w))
    as [[s|e] g] eqn:Hsplit; [|discriminate Hrun].
  exists d, s, g.
  unfold after_split in Hrun.
  apply bind_inv in Hrun as [(model' & w2 & Hsearch & Hrun)|(e & _ & ?)]; [|done].
  rewrite GridSearchCV_fit_empty in Hsearch. cbn [rng with_rng] in Hsearch.
  fold est in Hsearch.
  destruct (cross_val_score lib est [] (X_train s) (y_train s) g) as [[cv|e] g1]
    eqn:Hcv; [|discriminate Hsearch].
  destruct (fit lib est [] (X_train s) (y_train s) g1) as [[f|e] g2]
    eqn:Hfit; [|discriminate Hsearch].
  injection Hsearch as <- <-.
  unfold model_score, mbind, Py_bind, log, lift, print, mret, Py_ret in Hrun.
  cbn [heap stdout calls rng best_estimator_] in Hrun.
  destruct (score lib f (X_test s) (y_test s)) as [acc|]; [|discriminate Hrun].
  injection Hrun as <- <-. cbn [rng].
  exists cv, g1, f. split; [reflexivity|]. split; [exact Hsplit|].
  split; [first [exact Hcv|reflexivity]|]. split; [first [exact Hfit|reflexivity]|].
  reflexivity.
Qed.

(** C7. For every classifier class, the trainer instantiates the class
    once and with no argument, and the empty grid has one combination, the
    one that sets nothing.  On the empty grid the search is, call by call,
    one cross-validation of the estimator as instantiated with nothing set,
    then one fit of it with nothing set, on the data it was given: no second
    configuration is tried.  A run of lines 20-28 with the empty grid that
    returns has split, cross-validated that one configuration on the
    training partition, fitted it there once, and returns the estimator so
    fitted with the empty assignment as best parameters; the generator it
    leaves is the one that fit left.  The trace of every such run, returning
    or raising, holds one instantiation, at most one cross-validation and at
    most one fit. *)
Theorem empty_grid_fits_default_once (lib : Library) (data : loc)
    (learner : learner_class) (w : world) :
  let est := {| est_class := learner; est_args := [] |} in
  ParameterGrid [] = [[]] ∧
  (∀ X y w0,
     GridSearchCV_fit lib est [] X y w0
     = match cross_val_score lib est [] X y (rng w0) with
       | (Ok cv, g) =>
           match fit lib est [] X y g with
           | (Ok f, g') =>
               (Ok {| best_params_ := []; best_score_ := cv; best_estimator_ := f |},
                {| heap := heap w0; stdout := stdout w0;
                   calls := calls w0 ++ [EvCrossVal est [] X y; EvFit est [] X y];
                   rng := g' |})
           | (Raise e, g') =>
               (Raise e,
                {| heap := heap w0; stdout := stdout w0;
                   calls := calls w0 ++ [EvCrossVal est [] X y; EvFit est [] X y];
                   rng := g' |})
           end
       | (Raise e, g) =>
           (Raise e,
            {| heap := heap w0; stdout := stdout w0;
               calls := calls w0 ++ [EvCrossVal est [] X y]; rng := g |})
       end) ∧
  (∀ model w1,
     train_and_score lib data learner [] w = (Ok model, w1) →
     ∃ d s g cv g1 f,
       heap w !! data = Some d ∧
       train_test_split lib (ArticleDB.X d) (ArticleDB.y d) 0.2%Q None (rng w) = (Ok s, g) ∧
       cross_val_score lib est [] (X_train s) (y_train s) g = (Ok cv, g1) ∧
       fit lib est [] (X_train s) (y_train s) g1 = (Ok f, rng w1) ∧
       model = {| best_params_ := []; best_score_ := cv; best_estimator_ := f |}) ∧
  ∃ evs,
    calls (train_model lib data learner [] w).2 = calls w ++ evs ∧
    instantiations evs = [(learner, [])] ∧
    candidates_tried evs `prefix_of` [(est, [])] ∧
    fits evs `prefix_of` [(est, [])] ∧
    (∀ model w1,
       train_and_score lib data learner [] w = (Ok model, w1) →
       candidates_tried evs = [(est, [])] ∧ fits evs = [(est, [])] ∧
       best_params_ model = []).
Proof.
  intros est. split; [reflexivity|].
  split; [intros X y w0; apply GridSearchCV_fit_empty|].
  split; [intros model w1 Hrun; exact (train_and_score_empty_grid _ _ _ _ _ _ Hrun)|].
  rewrite train_model_calls_eq. subst est.
  py_run.
  all: rewrite <- ?app_assoc; eexists; (split; [reflexivity|]).
  all: repeat split; try done; try apply prefix_nil.
  all: intros; simplify_eq; done.
Qed.

Fact empty_grid_fits_default_once_witness :
  ∃ cv f,
    (train_and_score (toy flat_shape) 0 DecisionTreeClassifier [] toy_world).1
    = Ok {| best_params_ := []; best_score_ := cv; best_estimator_ := f |}.
Proof.
  pose proof (empty_grid_fits_default_once (toy flat_shape) 0 DecisionTreeClassifier
                toy_world) as Hrun.
  cbv zeta in Hrun. destruct Hrun as (_ & _ & Hret & _).
  destruct (train_and_score (toy flat_shape) 0 DecisionTreeClassifier [] toy_world)
    as [o w1] eqn:Hscore.
  assert (∃ model, o = Ok model) as [model ->].
  { vm_compute in Hscore. injection Hscore as <- _. eauto. }
  destruct (Hret model w1 eq_refl) as (_ & _ & _ & cv & _ & f & _ & _ & _ & _ & ->).
  exists cv, f. reflexivity.
Defined.

(** A fifth, rounded up. *)
Lemma ceiling_fifth (n t : nat) :
  Z.of_nat t = Qceiling (0.2 * inject_Z (Z.of_nat n)) → n ≤ 5 * t < n + 5.
Proof.
  unfold Qceiling, Qfloor, Qopp, Qmult, inject_Z. cbn [Qnum Qden].
  intros Ht. change (Z.pos (10 * 1)) with 10%Z in Ht.
  pose proof (Z.div_mod (- (2 * Z.of_nat n)) 10 ltac:(lia)) as Hdm.
  pose proof (Z.mod_pos_bound (- (2 * Z.of_nat n)) 10 ltac:(lia)) as Hb.
  lia.
Qed.

Lemma toy_split_contract shape : split_contract (toy shape).
Proof.
  intros X y test_size random_state g s g'. cbn [train_test_split toy].
  unfold toy_split. cbv zeta.
  set (n := Z.to_nat (Qceiling (test_size * inject_Z (Z.of_nat (length X))))).
  case_decide as Hok; [|done]. destruct Hok as (Hlen & Hpos & Hlt).
  intros [= <- <-]. cbn [X_train X_test y_train y_test].
  rewrite !length_drop, !length_take.
  split; [lia|]. split; [lia|]. split.
  - rewrite <- zip_with_drop, <- zip_with_take.
    rewrite Permutation_app_comm. by rewrite take_drop.
  - unfold n in *. lia.
Qed.

(** C5. Lines 20-28 are the split of the dataset's [X] and [y] with
    [test_size = 0.2] and no [random_state], on the global random generator
    as it stands, followed by the search and the scoring on the partitions
    that split returned.  Given scikit-learn's contract for the split, the
    partitions it returns on [N] rows are these: the test partition holds a
    fifth of the rows rounded up, the training partition the remaining rows,
    and rows and labels are divided together.  Of a run that returns, the
    best score is a cross-validated score on that training partition, the
    best estimator was fitted on that training partition, and the accuracy
    printed is its score on that test partition.  In every run the calls
    after the split are given the training partition to cross-validate and
    to fit and the test partition to score. *)
Theorem split_holds_out_a_fifth (lib : Library) (data : loc) (d : ArticleDB.t)
    (learner : learner_class) (grid : param_grid) (w : world) :
  split_contract lib →
  heap w !! data = Some d →
  length (ArticleDB.y d) = length (ArticleDB.X d) →
  let N := length (ArticleDB.X d) in
  let est := {| est_class := learner; est_args := [] |} in
  train_and_score lib data learner grid w
  = match train_test_split lib (ArticleDB.X d) (ArticleDB.y d) 0.2%Q None (rng w) with
    | (Ok s, g) =>
        after_split lib learner grid s (with_rng (at_split w data learner grid d) g)
    | (Raise e, g) => (Raise e, with_rng (at_split w data learner grid d) g)
    end ∧
  (∀ s g,
     train_test_split lib (ArticleDB.X d) (ArticleDB.y d) 0.2%Q None (rng w) = (Ok s, g) →
     length (X_train s) + length (X_test s) = N ∧
     N ≤ 5 * length (X_test s) < N + 5 ∧
     length (y_train s) = length (X_train s) ∧
     length (y_test s) = length (X_test s) ∧
     zip (X_train s) (y_train s) ++ zip (X_test s) (y_test s)
       ≡ₚ zip (ArticleDB.X d) (ArticleDB.y d) ∧
     ∀ model w1,
       train_and_score lib data learner grid w = (Ok model, w1) →
       (∃ g0 g0', cross_val_score lib est (best_params_ model) (X_train s) (y_train s) g0
                  = (Ok (best_score_ model), g0')) ∧
       (∃ g1, fit lib est (best_params_ model) (X_train s) (y_train s) g1
              = (Ok (best_estimator_ model), rng w1)) ∧
       ∃ accuracy,
         score lib (best_estimator_ model) (X_test s) (y_test s) = Ok accuracy ∧
         stdout w1 = stdout w ++
           [HeaderLine (str_slice_to (repr lib est) (str_find "("%char (repr lib est)))
                       (best_params_ model);
            ValAccuracyLine (best_score_ model); TestAccuracyLine accuracy]) ∧
  ∃ evs,
    calls (train_model lib data learner grid w).2
    = calls w ++ [EvTrainModel data learner grid; EvInstantiate learner [];
                  EvSplit (ArticleDB.X d) (ArticleDB.y d) 0.2%Q None] ++ evs ∧
    match train_test_split lib (ArticleDB.X d) (ArticleDB.y d) 0.2%Q None (rng w) with
    | (Ok s, _) => Forall (on_partitions s) evs
    | (Raise _, _) => evs = []
    end.
Proof.
  intros Hcontract Hd Hlen N est.
  split; [exact (train_and_score_at_split lib _ _ _ _ _ Hd)|]. split.
  - intros s g Hsplit.
    destruct (Hcontract _ _ _ _ _ _ _ Hsplit) as (Htr & Hte & Hperm & Hceil).
    pose proof (Permutation_length Hperm) as Hsize.
    rewrite length_app, !length_zip_with_l_eq in Hsize by done.
    pose proof (ceiling_fifth N _ Hceil) as Hfifth.
    split; [exact Hsize|]. split; [exact Hfifth|]. split; [exact Htr|].
    split; [exact Hte|]. split; [exact Hperm|].
    intros model w1 Hrun.
    destruct (train_and_score_returns lib _ _ _ _ _ _ _ Hd Hrun)
      as (s' & g' & Hsplit' & _ & Hcv & Hfit & Hacc).
    rewrite Hsplit in Hsplit'. injection Hsplit' as <- <-.
    split; [exact Hcv|]. split; [exact Hfit|]. exact Hacc.
  - rewrite train_model_calls_eq, (train_and_score_at_split lib _ _ _ _ _ Hd).
    destruct (train_test_split lib (ArticleDB.X d) (ArticleDB.y d) 0.2%Q None (rng w))
      as [[s|e] g] eqn:Hsplit.
    + destruct (after_split_calls lib learner grid s
                  (with_rng (at_split w data learner grid d) g)) as (evs & Hcalls & Hall).
      exists evs. split; [|exact Hall].
      rewrite Hcalls; cbn [calls with_rng at_split]; by rewrite <- app_assoc.
    + exists []. split; [|reflexivity]. cbn [snd calls with_rng at_split].
      by rewrite app_nil_r.
Qed.

Fact split_holds_out_a_fifth_witness :
  ∃ s g,
    train_test_split (toy flat_shape) (ArticleDB.X toy_db) (ArticleDB.y toy_db) 0.2%Q None 0
    = (Ok s, g) ∧
    length (X_test s) = 2 ∧ length (X_train s) = 8.
Proof.
  pose proof (split_holds_out_a_fifth (toy flat_shape) 0 toy_db DecisionTreeClassifier []
                toy_world (toy_split_contract flat_shape) eq_refl eq_refl) as Hrun.
  cbv zeta in Hrun. destruct Hrun as (_ & Hsizes & _).
  change (rng toy_world) with 0%Z in Hsizes.
  destruct (train_test_split (toy flat_shape) (ArticleDB.X toy_db) (ArticleDB.y toy_db)
              0.2%Q None 0) as [[s|e] g] eqn:Hcall.
  - exists s, g. split; [reflexivity|].
    destruct (Hsizes s g eq_refl) as (Hsum & Hfifth & _).
    change (length (ArticleDB.X toy_db)) with 10 in *. lia.
  - vm_compute in Hcall. discriminate Hcall.
Defined.

(** ** No handler anywhere *)

Lemma train_model_score_raise lib data learner grid w e w' :
  train_and_score lib data learner grid w = (Raise e, w') →
  train_model lib data learner grid w = (Raise e, w').
Proof. intros Hrun. unfold train_model. by apply bind_raise. Qed.

(** C9. Neither the trainer nor the driver handles an exception.  Whatever
    the split, the grid search, the scoring or the importance step raises,
    the trainer raises, in the world of the raise: nothing after it runs.
    Whatever the construction of the dataset or a run of the trainer raises,
    the driver raises, and the runs after it are not made. *)
Theorem exceptions_propagate (lib : Library) (data : loc) (learner : learner_class)
    (grid : param_grid) (w : world) (e : exn) (w' : world) :
  (∀ d g,
     heap w !! data = Some d →
     train_test_split lib (ArticleDB.X d) (ArticleDB.y d) 0.2%Q None (rng w) = (Raise e, g) →
     train_model lib data learner grid w
     = (Raise e, with_rng (at_split w data learner grid d) g)) ∧
  (∀ d s g,
     heap w !! data = Some d →
     train_test_split lib (ArticleDB.X d) (ArticleDB.y d) 0.2%Q None (rng w) = (Ok s, g) →
     let est := {| est_class := learner; est_args := [] |} in
     let w1 := with_rng (at_split w data learner grid d) g in
     (GridSearchCV_fit lib est grid (X_train s) (y_train s) w1 = (Raise e, w') →
      train_model lib data learner grid w = (Raise e, w')) ∧
     (∀ model w2,
        GridSearchCV_fit lib est grid (X_train s) (y_train s) w1 = (Ok model, w2) →
        model_score lib model (X_test s) (y_test s) w2 = (Raise e, w') →
        train_model lib data learner grid w = (Raise e, w'))) ∧
  (∀ model w3,
     train_and_score lib data learner grid w = (Ok model, w3) →
     print_top_10 lib data (variable_importance (best_estimator_ model)) w3 = (Raise e, w') →
     train_model lib data learner grid w = (Raise e, w')) ∧
  (ArticleDB_init lib false false = Raise e → (article_trainers lib w).1 = Raise e) ∧
  (∀ articles w1,
     ArticleDB_new lib false false w = (Ok articles, w1) →
     let alpha := [("alpha", [PyFloat 0.1; PyFloat 1.0; PyFloat 10.0; PyFloat 100.0])] in
     let C := [("C", [PyFloat 0.01; PyFloat 0.1; PyInt 1; PyInt 10; PyInt 100])] in
     (train_model lib articles DecisionTreeClassifier [] w1 = (Raise e, w') →
      article_trainers lib w = (Raise e, w')) ∧
     (∀ v1 w2,
        train_model lib articles DecisionTreeClassifier [] w1 = (Ok v1, w2) →
        (train_model lib articles MultinomialNB alpha w2 = (Raise e, w') →
         article_trainers lib w = (Raise e, w')) ∧
        (∀ v2 w3,
           train_model lib articles MultinomialNB alpha w2 = (Ok v2, w3) →
           train_model lib articles LogisticRegression C w3 = (Raise e, w') →
           article_trainers lib w = (Raise e, w')))).
Proof.
  split; [|split; [|split; [|split]]].
  - intros d g Hd Hsplit. apply train_model_score_raise.
    rewrite (train_and_score_at_split lib _ _ _ _ _ Hd), Hsplit. reflexivity.
  - intros d s g Hd Hsplit est w1. split.
    + intros Hsearch. apply train_model_score_raise.
      rewrite (train_and_score_at_split lib _ _ _ _ _ Hd), Hsplit.
      unfold after_split. by apply bind_raise.
    + intros model w2 Hsearch Hscore. apply train_model_score_raise.
      rewrite (train_and_score_at_split lib _ _ _ _ _ Hd), Hsplit.
      unfold after_split. etrans; [apply bind_ok; exact Hsearch|]. by apply bind_raise.
  - intros model w3 Hrun Hstep.
    rewrite (train_model_after_score lib _ _ _ _ _ _ Hrun). by apply bind_raise.
  - intros Hinit. rewrite article_trainers_run, ArticleDB_new_run, Hinit. reflexivity.
  - intros articles w1 Hnew alpha C. rewrite article_trainers_run, Hnew. split.
    + intros H1. by apply bind_raise.
    + intros v1 w2 H1. split.
      * intros H2. etrans; [apply bind_ok; exact H1|]. by apply bind_raise.
      * intros v2 w3 H2 H3. etrans; [apply bind_ok; exact H1|].
        etrans; [apply bind_ok; exact H2|]. by apply bind_raise.
Qed.

Fact exceptions_propagate_witness :
  (train_model (failing "split") 0 LogisticRegression [] toy_world).1 = Raise ValueError ∧
  (article_trainers (failing "load") empty_world).1 = Raise (Exception "IOError").
Proof.
  split.
  - destruct (exceptions_propagate (failing "split") 0 LogisticRegression [] toy_world
                ValueError toy_world) as (Hsplit & _).
    rewrite (Hsplit toy_db 0%Z eq_refl eq_refl). reflexivity.
  - destruct (exceptions_propagate (failing "load") 0 LogisticRegression [] empty_world
                (Exception "IOError") empty_world) as (_ & _ & _ & Hload & _).
    apply Hload. reflexivity.
Defined.

(** ** The name in the header line *)

Lemma str_find_nonneg c s : (-1 ≤ str_find c s)%Z.
Proof.
  induction s as [|a s IH]; simpl; [lia|].
  destruct (Ascii.eqb a c); [lia|]. destruct (Z.ltb_spec (str_find c s) 0); lia.
Qed.

Lemma str_find_append c name rest :
  str_find c name = (-1)%Z →
  str_find c (name +:+ String c rest) = Z.of_nat (String.length name).
Proof.
  induction name as [|a name IH]; simpl.
  - intros _. by rewrite Ascii.eqb_refl.
  - destruct (Ascii.eqb a c); [done|].
    destruct (Z.ltb_spec (str_find c name) 0) as [Hneg|Hpos]; [|lia].
    intros _. rewrite IH by (pose proof (str_find_nonneg c name); lia).
    destruct (Z.ltb_spec (Z.of_nat (String.length name)) 0); lia.
Qed.

Lemma substring_append_l name rest :
  String.substring 0 (String.length name) (name +:+ rest) = name.
Proof.
  induction name as [|a name IH]; simpl; [by destruct rest|]. by rewrite IH.
Qed.

Lemma str_slice_to_prefix name rest :
  str_slice_to (name +:+ rest) (Z.of_nat (String.length name)) = name.
Proof.
  unfold str_slice_to.
  destruct (Z.ltb_spec (Z.of_nat (String.length name)) 0) as [|_]; [lia|].
  assert (String.length (name +:+ rest) = String.length name + String.length rest) as Hlen.
  { clear. induction name as [|a name IH]; simpl; [done|]. by rewrite IH. }
  rewrite Hlen, Z.min_l, Nat2Z.id by lia. apply substring_append_l.
Qed.

(** X1. When [repr(learner)] is a name free of parentheses followed by an
    opening parenthesis and anything more, the name printed in the header
    line, [repr(learner)[:repr(learner).find('(')]], is that name. *)
Theorem learner_repr_is_text_before_paren (name rest : string) :
  str_find "("%char name = (-1)%Z →
  let r := name +:+ String "("%char rest in
  str_slice_to r (str_find "("%char r) = name.
Proof.
  intros Hname r. unfold r. rewrite str_find_append by done. apply str_slice_to_prefix.
Qed.

Fact learner_repr_is_text_before_paren_witness :
  str_slice_to "LogisticRegression(C=1.0)"
    (str_find "("%char "LogisticRegression(C=1.0)") = "LogisticRegression".
Proof.
  apply (learner_repr_is_text_before_paren "LogisticRegression" "C=1.0)"). reflexivity.
Defined.

(** X2. When [repr(learner)] holds no opening parenthesis, [find] returns
    -1 and the slice [[:-1]] drops the last character: the header line
    carries the text short of its last character. *)
Theorem learner_repr_without_paren_loses_last_char (name : string) (last : ascii) :
  let r := name +:+ String last "" in
  str_find "("%char r = (-1)%Z →
  str_slice_to r (str_find "("%char r) = name.
Proof.
  intros r Hr. rewrite Hr. unfold str_slice_to. change (-1 <? 0)%Z with true. cbv iota.
  assert (String.length r = String.length name + 1) as Hlen.
  { unfold r. clear. induction name as [|a name IH]; simpl; [done|]. by rewrite IH. }
  rewrite Hlen. replace (Z.to_nat (Z.max 0 (-1 + Z.of_nat (String.length name + 1))))
    with (String.length name) by lia.
  unfold r. apply substring_append_l.
Qed.

Fact learner_repr_without_paren_loses_last_char_witness :
  str_slice_to "SVC" (str_find "("%char "SVC") = "SV".
Proof.
  apply (learner_repr_without_paren_loses_last_char "SV" "C"%char). reflexivity.
Defined.

(** ** What a run prints *)

Lemma print_feature_output data var_imp top_10 rank w u w' :
  print_feature data var_imp top_10 rank w = (Ok u, w') →
  ∃ name feature_score,
    stdout w' = stdout w ++ [FeatureLine (rank + 1) name feature_score].
Proof.
  unfold print_feature. intros Hrun.
  apply bind_inv in Hrun as [(col & w1 & [_ ->]%lift_inv & Hrun)|(e & _ & ?)]; [|done].
  apply bind_inv in Hrun as [(names & w2 & (d & _ & _ & ->)%getattr_inv & Hrun)|(e & _ & ?)];
    [|done].
  apply bind_inv in Hrun as [(name & w3 & [_ ->]%lift_inv & Hrun)|(e & _ & ?)]; [|done].
  apply bind_inv in Hrun as [(x & w4 & [_ ->]%lift_inv & Hrun)|(e & _ & ?)]; [|done].
  injection Hrun as _ <-. eauto.
Qed.

Lemma print_features_output data var_imp top_10 ranks w w' :
  for_each ranks (print_feature data var_imp top_10) w = (Ok (), w') →
  ∃ feats,
    stdout w' = stdout w ++ feats ∧
    Forall2 (λ rank l, ∃ name feature_score, l = FeatureLine (rank + 1) name feature_score)
            ranks feats.
Proof.
  revert w. induction ranks as [|rank ranks IH]; intros w; simpl.
  - intros [= <-]. exists []. rewrite app_nil_r. split; [done|constructor].
  - intros Hrun.
    apply bind_inv in Hrun as [(u & w1 & Hstep & Hrun)|(e & _ & ?)]; [|done].
    apply print_feature_output in Hstep as (name & x & Hstep).
    destruct (IH _ Hrun) as (feats & Hout & Hall).
    exists (FeatureLine (rank + 1) name x :: feats). split.
    + rewrite Hout, Hstep, <- app_assoc. done.
    + constructor; eauto.
Qed.

Lemma print_top_10_output lib data var_imp w u w' :
  print_top_10 lib data var_imp w = (Ok u, w') →
  ∃ feats,
    stdout w' = stdout w ++ MostImportantLine :: feats ∧ length feats = 10 ∧
    ∀ rank, rank < 10 →
      ∃ name feature_score, feats !! rank = Some (FeatureLine (rank + 1) name feature_score).
Proof.
  unfold print_top_10. intros Hrun.
  apply bind_inv in Hrun as [(top_10 & w1 & [_ ->]%lift_inv & Hrun)|(e & _ & ?)]; [|done].
  apply bind_inv in Hrun as [([] & w2 & Hhead & Hrun)|(e & _ & ?)]; [|done].
  injection Hhead as <-. destruct u.
  apply print_features_output in Hrun as (feats & Hout & Hall).
  exists feats. cbn [stdout] in Hout. rewrite Hout, <- app_assoc. split; [done|].
  split; [by rewrite <- (Forall2_length _ _ _ Hall)|].
  intros rank Hrank.
  destruct (Forall2_lookup_l _ _ _ rank rank Hall) as (l & Hl & name & x & ->); [|eauto].
  unfold range. rewrite lookup_seq. split; [done|lia].
Qed.

Lemma train_model_output lib data learner grid w v w' :
  train_model lib data learner grid w = (Ok v, w') →
  ∃ model w1 d s g accuracy feats,
    train_and_score lib data learner grid w = (Ok model, w1) ∧
    heap w !! data = Some d ∧
    train_test_split lib (ArticleDB.X d) (ArticleDB.y d) 0.2%Q None (rng w) = (Ok s, g) ∧
    score lib (best_estimator_ model) (X_test s) (y_test s) = Ok accuracy ∧
    let r := repr lib {| est_class := learner; est_args := [] |} in
    stdout w' = stdout w ++
      [HeaderLine (str_slice_to r (str_find "("%char r)) (best_params_ model);
       ValAccuracyLine (best_score_ model); TestAccuracyLine accuracy; MostImportantLine]
      ++ feats ∧
    length feats = 10 ∧
    ∀ rank, rank < 10 →
      ∃ name feature_score, feats !! rank = Some (FeatureLine (rank + 1) name feature_score).
Proof.
  unfold train_model. intros Hrun.
  apply bind_inv in Hrun as [(model & w1 & Hscore & Hrun)|(e & _ & ?)]; [|done].
  apply bind_inv in Hrun as [(u & w2 & Htop & Hret)|(e & _ & ?)]; [|done].
  injection Hret as _ <-.
  pose proof (train_and_score_output lib _ _ _ _ _ _ Hscore) as (d & s & g & acc & Hd & Hsplit & Hacc & Hout).
  apply print_top_10_output in Htop as (feats & Hout2 & Hlen & Hfeats).
  exists model, w1, d, s, g, acc, feats. repeat split; try done.
  cbv zeta in *. rewrite Hout2, Hout, <- app_assoc. done.
Qed.

(** X3. A run of the trainer that raises before its report (in the
    instantiation, the split, the grid search or the scoring) has printed
    nothing: the first [print] comes after the score. *)
Theorem failure_before_report_prints_nothing (lib : Library) (data : loc)
    (learner : learner_class) (grid : param_grid) (w : world) (e : exn) (w' : world) :
  train_and_score lib data learner grid w = (Raise e, w') →
  train_model lib data learner grid w = (Raise e, w') ∧ stdout w' = stdout w.
Proof.
  intros Hrun. split; [by apply train_model_score_raise|].
  exact (train_and_score_output lib _ _ _ _ _ _ Hrun).
Qed.

Fact failure_before_report_prints_nothing_witness :
  ∃ w', train_model (failing "score") 0 LogisticRegression [] toy_world
        = (Raise (Exception "ScoreFailed"), w') ∧ stdout w' = [].
Proof.
  eexists. apply failure_before_report_prints_nothing. vm_compute. reflexivity.
Defined.

(** X4. A run of the trainer that returns has printed one block of
    fourteen lines: the header with the name taken from [repr(learner)] and
    the best parameters, the best cross-validated score, the accuracy, which
    is the score of the best estimator on the test partition of the split,
    the heading, and ten feature lines numbered 1 to 10. *)
Theorem returning_run_prints_one_block (lib : Library) (data : loc)
    (learner : learner_class) (grid : param_grid) (w : world) (v : value) (w' : world) :
  train_model lib data learner grid w = (Ok v, w') →
  ∃ model w1 d s g accuracy feats,
    train_and_score lib data learner grid w = (Ok model, w1) ∧
    heap w !! data = Some d ∧
    train_test_split lib (ArticleDB.X d) (ArticleDB.y d) 0.2%Q None (rng w) = (Ok s, g) ∧
    score lib (best_estimator_ model) (X_test s) (y_test s) = Ok accuracy ∧
    let r := repr lib {| est_class := learner; est_args := [] |} in
    stdout w' = stdout w ++
      [HeaderLine (str_slice_to r (str_find "("%char r)) (best_params_ model);
       ValAccuracyLine (best_score_ model); TestAccuracyLine accuracy; MostImportantLine]
      ++ feats ∧
    length feats = 10 ∧
    ∀ rank, rank < 10 →
      ∃ name feature_score, feats !! rank = Some (FeatureLine (rank + 1) name feature_score).
Proof. apply train_model_output. Qed.

Fact returning_run_prints_one_block_witness :
  ∃ feats,
    stdout (train_model (toy flat_shape) 0 DecisionTreeClassifier [] toy_world).2
    = [HeaderLine "DecisionTreeClassifier" []; ValAccuracyLine 0.5%Q;
       TestAccuracyLine 0.9%Q; MostImportantLine] ++ feats ∧
    length feats = 10.
Proof.
  destruct (train_model (toy flat_shape) 0 DecisionTreeClassifier [] toy_world)
    as [o w'] eqn:Hrun.
  assert (∃ v, o = Ok v) as [v ->].
  { vm_compute in Hrun. injection Hrun as <- _. eauto. }
  destruct (returning_run_prints_one_block _ _ _ _ _ _ _ Hrun)
    as (model & w1 & d & s & g & acc & feats & Hscore & Hd & Hsplit & Hacc & Hout & Hlen & _).
  exists feats. split; [|exact Hlen]. cbv zeta in Hout. cbn [snd]. rewrite Hout.
  assert (best_params_ model = [] ∧ best_score_ model = 0.5%Q) as [-> ->].
  { vm_compute in Hscore. injection Hscore as <- _. split; reflexivity. }
  assert (acc = 0.9%Q) as ->.
  { cbn [score toy] in Hacc. congruence. }
  reflexivity.
Defined.

Lemma print_top_10_matrix_run lib data m w :
  ∃ e w',
    print_top_10 lib data (VArr2 m) w = (Raise e, w') ∧
    calls w' = calls w ∧
    (stdout w' = stdout w ∨ stdout w' = stdout w ++ [MostImportantLine]).
Proof.
  unfold print_top_10.
  destruct (top_10_vars lib (VArr2 m)) as [top_10|e] eqn:Htop; [|cbn; eauto 10].
  apply top_10_vars_matrix in Htop as (rs & -> & _).
  unfold mbind, Py_bind, lift, print, range. simpl.
  unfold mbind, Py_bind, print_feature, lift, getattr. simpl.
  unfold mbind, Py_bind. simpl.
  destruct (last_10 rs !! 0) as [row|]; simpl; [|eauto 10].
  destruct (heap w !! data); simpl; eauto 10.
Qed.

(** X8. When the dataset is constructed, the decision tree's run returns
    and the search for multinomial naive Bayes returns an estimator whose
    [coef_] is a matrix, the driver raises in that second run of the trainer:
    at most the heading of the ranking is printed after the accuracy lines,
    and the trainer is never entered for logistic regression. *)
Theorem matrix_coef_stops_the_driver (lib : Library) (w : world) (articles : loc)
    (w1 : world) (v1 : value) (w2 : world) (model : grid_search) (w3 : world)
    (m : list (list Q)) :
  let alphas := [("alpha", [PyFloat 0.1; PyFloat 1.0; PyFloat 10.0; PyFloat 100.0])] in
  ArticleDB_new lib false false w = (Ok articles, w1) →
  train_model lib articles DecisionTreeClassifier [] w1 = (Ok v1, w2) →
  train_and_score lib articles MultinomialNB alphas w2 = (Ok model, w3) →
  coef_ (best_estimator_ model) = Some (VArr2 m) →
  ∃ e w',
    train_model lib articles MultinomialNB alphas w2 = (Raise e, w') ∧
    article_trainers lib w = (Raise e, w') ∧
    (stdout w' = stdout w3 ∨ stdout w' = stdout w3 ++ [MostImportantLine]) ∧
    trainer_calls (calls w')
    = trainer_calls (calls w)
      ++ [(articles, DecisionTreeClassifier, []); (articles, MultinomialNB, alphas)].
Proof.
  intros alphas Hnew Htree Hscore Hcoef.
  destruct (print_top_10_matrix_run lib articles m w3) as (e & w' & Hprint & Hcalls & Hout).
  assert (train_model lib articles MultinomialNB alphas w2 = (Raise e, w')) as Hbayes.
  { rewrite (train_model_after_score lib _ _ _ _ _ _ Hscore).
    unfold variable_importance. rewrite Hcoef. apply bind_raise. exact Hprint. }
  exists e, w'. split; [exact Hbayes|]. split.
  - rewrite article_trainers_run, Hnew.
    etrans; [apply bind_ok; exact Htree|]. apply bind_raise. exact Hbayes.
  - split; [exact Hout|].
    destruct (train_model_calls lib articles DecisionTreeClassifier [] w1)
      as (evs1 & Hc1 & Hl1).
    destruct (train_model_calls lib articles MultinomialNB alphas w2)
      as (evs2 & Hc2 & Hl2).
    rewrite Htree in Hc1. rewrite Hbayes in Hc2. cbn [snd] in Hc1, Hc2.
    rewrite ArticleDB_new_run in Hnew.
    destruct (ArticleDB_init lib false false) as [d|]; [|discriminate Hnew].
    injection Hnew as _ <-. cbn [calls] in Hc1.
    rewrite Hc2, Hc1, !trainer_calls_app.
    destruct (trainer_run_calls articles DecisionTreeClassifier [] evs1 Hl1) as [-> _].
    destruct (trainer_run_calls articles MultinomialNB alphas evs2 Hl2) as [-> _].
    change (trainer_calls [EvArticleDB false false]) with (@nil (loc * learner_class * param_grid)).
    by rewrite app_nil_r, <- app_assoc.
Qed.

Fact matrix_coef_stops_the_driver_witness :
  ∃ e w',
    article_trainers (toy sklearn_shape) empty_world = (Raise e, w') ∧
    trainer_calls (calls w')
    = [(0, DecisionTreeClassifier, []);
       (0, MultinomialNB,
        [("alpha", [PyFloat 0.1; PyFloat 1.0; PyFloat 10.0; PyFloat 100.0])])].
Proof.
  edestruct (matrix_coef_stops_the_driver (toy sklearn_shape) empty_world)
    as (e & w' & _ & Hrun & _ & Hcalls).
  - vm_compute. reflexivity.
  - vm_compute. reflexivity.
  - vm_compute. reflexivity.
  - reflexivity.
  - exists e, w'. split; [exact Hrun|exact Hcalls].
Defined.

(** ** The order of the ten, and the edges of the ranking *)

Lemma for_each_raise {A} (body : A → Py unit) (l1 l2 : list A) (x : A) w w1 e w2 :
  for_each l1 body w = (Ok (), w1) →
  body x w1 = (Raise e, w2) →
  for_each (l1 ++ x :: l2) body w = (Raise e, w2).
Proof.
  revert w. induction l1 as [|a l1 IH]; intros w; simpl.
  - intros [= <-] Hx. by apply bind_raise.
  - intros Hrun Hx.
    apply bind_inv in Hrun as [([] & w' & Ha & Hrun)|(e' & _ & ?)]; [|done].
    etrans; [apply bind_ok; exact Ha|]. by apply IH.
Qed.

(** X5. In the ranking of a vector of at least ten scores the line of rank 1
    carries the least of the ten scores printed: [np.argpartition] leaves at
    the front of the ten the column a sort would put there. *)
Theorem rank_1_has_least_score (lib : Library) (v : list Q) :
  introselect_contract (introselect lib) →
  10 ≤ length v →
  ∃ t, top_10_vars lib (VArr1 v) = Ok (IArr1 t) ∧
       ∀ rank first c x0 x,
         t !! 0 = Some first → t !! rank = Some c →
         v !! first = Some x0 → v !! c = Some x → (x0 <= x)%Q.
Proof.
  intros Hsel Hv. eexists. split; [by apply top_10_vars_vector|].
  set (k := length v - 10). assert (k < length v) as Hk by lia.
  intros rank first c x0 x. rewrite !last_10_lookup, (sel_length _ Hsel v k Hk).
  fold k. rewrite Nat.add_0_r. intros Hfirst Hc Hx0 Hx.
  destruct (Hsel v k Hk) as [_ Hpart].
  destruct (Hpart (k + rank) c first x x0 Hfirst Hc Hx0 Hx) as [_ Hhigh].
  destruct rank as [|rank]; [|apply Hhigh; lia].
  rewrite Nat.add_0_r in Hc. assert (c = first) as -> by congruence.
  assert (x = x0) as -> by congruence. apply Qle_refl.
Qed.

Fact rank_1_has_least_score_witness :
  ∃ t, top_10_vars (toy flat_shape) (VArr1 signed_coefficients) = Ok (IArr1 t) ∧
       ∀ rank first c x0 x,
         t !! 0 = Some first → t !! rank = Some c →
         signed_coefficients !! first = Some x0 → signed_coefficients !! c = Some x →
         (x0 <= x)%Q.
Proof.
  apply (rank_1_has_least_score (toy flat_shape) signed_coefficients argsort_contract).
  simpl. lia.
Defined.

(** X7. With exactly ten features the selection lists every column once:
    the ten columns printed are the columns 0 to 9 in some order. *)
Theorem exactly_ten_features_all_listed (lib : Library) (v : list Q) :
  introselect_contract (introselect lib) →
  length v = 10 →
  ∃ t, top_10_vars lib (VArr1 v) = Ok (IArr1 t) ∧ t ≡ₚ seq 0 10.
Proof.
  intros Hsel Hv. eexists. split; [apply top_10_vars_vector; lia|].
  rewrite Hv. change (10 - 10) with 0.
  assert (0 < length v) as Hk by lia.
  rewrite last_10_short by (rewrite (sel_length _ Hsel v 0 Hk); lia).
  destruct (Hsel v 0 Hk) as [Hperm _]. by rewrite Hperm, Hv.
Qed.

Fact exactly_ten_features_all_listed_witness :
  ∃ t, top_10_vars (toy flat_shape) (VArr1 ascending_scores) = Ok (IArr1 t) ∧
       t ≡ₚ seq 0 10.
Proof.
  apply (exactly_ten_features_all_listed (toy flat_shape) ascending_scores argsort_contract).
  reflexivity.
Defined.

(** X6. When [column_number] has no name for the column at some rank, and
    has one for the columns at the ranks before it, the importance step
    raises KeyError in that round of the loop, having printed the heading
    and one line for each of the ranks before. *)
Theorem missing_name_stops_ranking (lib : Library) (v : list Q) (data : loc)
    (d : ArticleDB.t) (w : world) (t : list nat) (rank c : nat) :
  introselect_contract (introselect lib) →
  10 ≤ length v →
  heap w !! data = Some d →
  top_10_vars lib (VArr1 v) = Ok (IArr1 t) →
  t !! rank = Some c →
  ArticleDB.column_number d !! c = None →
  (∀ r c', r < rank → t !! r = Some c' → is_Some (ArticleDB.column_number d !! c')) →
  ∃ feats,
    print_top_10 lib data (VArr1 v) w
    = (Raise KeyError,
       {| heap := heap w; stdout := stdout w ++ MostImportantLine :: feats;
          calls := calls w; rng := rng w |}) ∧
    length feats = rank.
Proof.
  intros Hsel Hv Hd Htop Hc Hnone Hnamed.
  rewrite top_10_vars_vector in Htop by done. injection Htop as Ht.
  destruct (sel_ten_greatest _ Hsel v Hv) as (Hlen & _ & Hrange & _). rewrite Ht in Hlen, Hrange.
  assert (rank < 10) as Hrank by (apply lookup_lt_Some in Hc; lia).
  destruct (print_features_run data d v t (seq 0 rank)
              {| heap := heap w; stdout := stdout w ++ [MostImportantLine];
                 calls := calls w; rng := rng w |} Hd) as (feats & Hloop & Hlines).
  { apply Forall_forall. intros r Hr%elem_of_seq.
    destruct (lookup_lt_is_Some_2 t r) as [c' Hc']; [lia|]. exists c'.
    split; [done|]. split; [|apply (Hnamed r); [lia|done]].
    apply Hrange. eapply list_elem_of_lookup_2. done. }
  exists feats. split.
  - unfold print_top_10. rewrite top_10_vars_vector, Ht by done.
    unfold mbind at 1, Py_bind at 1, lift. unfold mbind at 1, Py_bind at 1, print.
    assert (range 10 = seq 0 rank ++ rank :: seq (S rank) (10 - S rank)) as ->.
    { unfold range. replace 10 with (rank + S (10 - S rank)) at 1 by lia.
      rewrite seq_app. done. }
    etrans; [eapply for_each_raise; [exact Hloop|]|].
    + unfold print_feature, mbind, Py_bind, lift, getattr, indices_getitem.
      rewrite Hc. cbn [heap]. rewrite Hd. cbn [dict_getitem]. rewrite Hnone. reflexivity.
    + cbn [stdout]. by rewrite <- app_assoc.
  - apply Forall2_length in Hlines. rewrite <- Hlines. apply length_seq.
Qed.

Fact missing_name_stops_ranking_witness :
  ∃ feats,
    print_top_10 (toy flat_shape) 0 (VArr1 signed_coefficients) sparse_world
    = (Raise KeyError,
       {| heap := heap sparse_world;
          stdout := stdout sparse_world ++ MostImportantLine :: feats;
          calls := calls sparse_world; rng := rng sparse_world |}) ∧
    length feats = 2.
Proof.
  apply (missing_name_stops_ranking (toy flat_shape) signed_coefficients 0 sparse_db
           sparse_world [1; 2; 3; 4; 5; 6; 7; 8; 9; 10] 2 3 argsort_contract).
  - simpl. lia.
  - reflexivity.
  - vm_compute. reflexivity.
  - reflexivity.
  - vm_compute. reflexivity.
  - intros r c' Hr Hc'. destruct r as [|[|r]]; [| |lia]; injection Hc' as <-;
      vm_compute; eauto.
Defined.
